(** * Phone verification: the User model's verification-code state machine

    A shallow embedding of the instance and static methods of the Mongoose
    [User] model (models/User.js, kept in phone-verification/src/server.js):
    [generateVerificationCode], [verifyCode], [canRequestVerificationCode]
    and [cleanupExpiredCodes], together with the JavaScript primitives they
    rely on ([Math.floor], [Math.random], [Math.ceil], [Number.toString],
    truthiness and strict inequality).

    Conventions.
    - A [Date] is its millisecond time value, an integer [Z].
    - A schema path that may be [undefined] is an [option].
    - The methods mutate [this]; here every method returns the updated
      document next to its JavaScript return value.
    - Each read of the clock ([Date.now()], [new Date()]) and each draw of
      [Math.random()] is an explicit argument of the method that performs it.
    - [parseInt(process.env.VERIFICATION_CODE_EXPIRY)] is the integer
      argument [ttl].
    - The counter [verificationAttempts] is an integer-valued Number; its
      increment is the addition of doubles, [Js.add]. *)

From Stdlib Require Import ZArith String Ascii List Bool Lia.
Import ListNotations.

Local Open Scope Z_scope.

(** ** JavaScript primitives *)

Module Js.

(** Values a request body can carry in the [verificationCode] field. *)
Inductive Value : Type :=
| Undefined : Value
| Null : Value
| Boolean (b : bool) : Value
| Number (n : Z) : Value
| Str (s : string) : Value.

(** [!s] for an optional string: [undefined] and the empty string are
    falsy. *)
Definition falsy_string (s : option string) : bool :=
  match s with
  | None => true
  | Some EmptyString => true
  | Some (String _ _) => false
  end.

(** [!d] for an optional [Date]: only [undefined] is falsy, a [Date]
    object is always truthy. *)
Definition falsy_date (d : option Z) : bool :=
  match d with
  | None => true
  | Some _ => false
  end.

(** [s !== v] for a string [s]: strict inequality never coerces, so any
    non-string value differs from [s]. *)
Definition strict_neq (s : string) (v : Value) : bool :=
  match v with
  | Str s' => negb (String.eqb s s')
  | _ => true
  end.

(** *** Number.prototype.toString for integers *)

Definition digit_char (d : Z) : ascii := ascii_of_nat (48 + Z.to_nat d).

(** The decimal digits of [n >= 0], least significant first, pushed in
    front of [acc]. *)
Fixpoint digits (fuel : nat) (n : Z) (acc : string) : string :=
  match fuel with
  | O => acc
  | S fuel' =>
      let acc' := String (digit_char (n mod 10)) acc in
      if n / 10 =? 0 then acc' else digits fuel' (n / 10) acc'
  end.

(** A positive [n] has at most [log2 n + 1] decimal digits, so the fuel
    never runs out. *)
Definition toString (n : Z) : string :=
  if n <? 0
  then String "-"%char (digits (S (Z.to_nat (Z.log2 (- n)))) (- n) EmptyString)
  else digits (S (Z.to_nat (Z.log2 n))) n EmptyString.

Definition is_digit (c : ascii) : bool :=
  ((48 <=? nat_of_ascii c) && (nat_of_ascii c <=? 57))%nat.

Fixpoint all_digits (s : string) : bool :=
  match s with
  | EmptyString => true
  | String c s' => is_digit c && all_digits s'
  end.

(** *** Binary64 arithmetic on non-negative dyadic numbers

    A non-negative double that is a multiple of [2^-53] is represented by
    its numerator over [2^53]. Such a number is a double exactly when its
    numerator fits 53 significant bits; the result of an operation is the
    exact result rounded to 53 significant bits, ties to even. *)

Definition unit_bits : Z := 53.

(** Nearest multiple of [2^s], ties to the even quotient. *)
Definition roundTiesToEven (s m : Z) : Z :=
  let q := m / 2 ^ s in
  let r := m mod 2 ^ s in
  if 2 * r <? 2 ^ s then q * 2 ^ s
  else if 2 ^ s <? 2 * r then (q + 1) * 2 ^ s
  else if Z.even q then q * 2 ^ s
  else (q + 1) * 2 ^ s.

(** Rounding of the exact result [m]: 53 significant bits are kept. *)
Definition fl (m : Z) : Z :=
  if m <? 2 ^ 53 then m else roundTiesToEven (Z.log2 m - 52) m.

(** Rounding of an exact integer result of either sign: the magnitude is
    rounded, the sign is kept. *)
Definition round (m : Z) : Z :=
  if m <? 0 then - fl (- m) else fl m.

(** [a + b] for two integer-valued Numbers: the exact sum, rounded to a
    double. Up to [2^53] in magnitude every integer is a double and the sum
    is exact; beyond, [n + 1] is not a double and rounds back to a
    neighbour. *)
Definition add (a b : Z) : Z := round (a + b).

(** A draw of [Math.random()]: a double in [0, 1) of the form [k / 2^53]
    with [0 <= k < 2^53], which is what the engines produce from 52 or 53
    random bits. *)
Definition random_draw (k : Z) : Prop := 0 <= k < 2 ^ 53.

(** [Math.floor(lo + Math.random() * span)] for integer constants [lo]
    and [span], with [k] the draw: the product and the sum are each
    rounded to a double, then floored. *)
Definition floor_lo_plus_random_times (lo span k : Z) : Z :=
  let prod := fl (k * span) in
  let sum := fl (lo * 2 ^ unit_bits + prod) in
  sum / 2 ^ unit_bits.

(** [Math.ceil(x / 60000)] for an integer [x], as [ceil_div x 60000]. For
    [|x| < 2^53], which differences of time values are, the exact quotient
    is an integer or at least [1/60000] away from one, more than the
    rounding error of the division, so the ceiling of the double is the
    ceiling of the exact quotient. *)
Definition ceil_div (x d : Z) : Z := - ((- x) / d).

(** Completion of a call: a normal return or a thrown [TypeError]. *)
Inductive Completion (A : Type) : Type :=
| Normal (a : A) : Completion A
| ThrowTypeError (msg : string) : Completion A.
Arguments Normal {A} a.
Arguments ThrowTypeError {A} msg.

End Js.

(** ** The User document *)

Record User : Type := mkUser {
  phoneNumber : string;
  password : option string;
  isPhoneVerified : bool;
  verificationCode : option string;
  verificationCodeExpiry : option Z;
  verificationAttempts : Z;
  lastVerificationAttempt : option Z;
  isActive : bool;
  createdAt : Z;
  lastLoginAt : option Z
}.

(** [new User({ phoneNumber, isPhoneVerified: false, isActive: true })],
    optionally with a password, with the schema defaults filled in. *)
Definition newUser (phone : string) (pwd : option string) (created : Z) : User :=
  {| phoneNumber := phone;
     password := pwd;
     isPhoneVerified := false;
     verificationCode := None;
     verificationCodeExpiry := None;
     verificationAttempts := 0;
     lastVerificationAttempt := None;
     isActive := true;
     createdAt := created;
     lastLoginAt := None |}.

(** Field assignments on [this]. *)
Definition set_isPhoneVerified (b : bool) (u : User) : User :=
  mkUser (phoneNumber u) (password u) b (verificationCode u)
         (verificationCodeExpiry u) (verificationAttempts u)
         (lastVerificationAttempt u) (isActive u) (createdAt u) (lastLoginAt u).

Definition set_verificationCode (c : option string) (u : User) : User :=
  mkUser (phoneNumber u) (password u) (isPhoneVerified u) c
         (verificationCodeExpiry u) (verificationAttempts u)
         (lastVerificationAttempt u) (isActive u) (createdAt u) (lastLoginAt u).

Definition set_verificationCodeExpiry (e : option Z) (u : User) : User :=
  mkUser (phoneNumber u) (password u) (isPhoneVerified u) (verificationCode u)
         e (verificationAttempts u)
         (lastVerificationAttempt u) (isActive u) (createdAt u) (lastLoginAt u).

Definition set_verificationAttempts (n : Z) (u : User) : User :=
  mkUser (phoneNumber u) (password u) (isPhoneVerified u) (verificationCode u)
         (verificationCodeExpiry u) n
         (lastVerificationAttempt u) (isActive u) (createdAt u) (lastLoginAt u).

Definition set_lastVerificationAttempt (t : option Z) (u : User) : User :=
  mkUser (phoneNumber u) (password u) (isPhoneVerified u) (verificationCode u)
         (verificationCodeExpiry u) (verificationAttempts u)
         t (isActive u) (createdAt u) (lastLoginAt u).

(** ** Instance methods *)

(** Return value of [verifyCode]. *)
Record VerifyResult : Type := mkVerifyResult {
  success : bool;
  message : string
}.

(** Return value of [canRequestVerificationCode]; [canRequestMessage] is
    absent on the allowing path. *)
Record CanRequestResult : Type := mkCanRequestResult {
  canRequest : bool;
  canRequestMessage : option string
}.

(** The three failure messages of [verifyCode] and the names the
    specification gives to them. *)
Definition NO_CODE_ISSUED : string := "No verification code found".
Definition CODE_EXPIRED : string := "Verification code has expired".
Definition CODE_MISMATCH : string := "Invalid verification code".
Definition VERIFIED_OK : string := "Phone number verified successfully".

Definition maxAttempts : Z := 5.
Definition cooldownPeriod : Z := 15 * 60 * 1000.

(** [generateVerificationCode]: [k] is the draw of [Math.random()], [t1]
    the reading of [Date.now()] and [t2] the later reading of
    [new Date()]. *)
Definition generateVerificationCode (ttl k t1 t2 : Z) (u : User) : string * User :=
  let code := Js.toString (Js.floor_lo_plus_random_times 100000 900000 k) in
  let u1 := set_verificationCode (Some code) u in
  let u2 := set_verificationCodeExpiry (Some (t1 + ttl)) u1 in
  let u3 := set_verificationAttempts (Js.add (verificationAttempts u2) 1) u2 in
  let u4 := set_lastVerificationAttempt (Some t2) u3 in
  (code, u4).

(** [verifyCode(code)]: [now] is the reading of [new Date()]. *)
Definition verifyCode (now : Z) (code : Js.Value) (u : User) : VerifyResult * User :=
  if Js.falsy_string (verificationCode u) || Js.falsy_date (verificationCodeExpiry u)
  then (mkVerifyResult false NO_CODE_ISSUED, u)
  else
    match verificationCode u, verificationCodeExpiry u with
    | Some stored, Some expiry =>
        if expiry <? now
        then (mkVerifyResult false CODE_EXPIRED, u)
        else if Js.strict_neq stored code
        then (mkVerifyResult false CODE_MISMATCH, u)
        else
          let u1 := set_isPhoneVerified true u in
          let u2 := set_verificationCode None u1 in
          let u3 := set_verificationCodeExpiry None u2 in
          let u4 := set_verificationAttempts 0 u3 in
          (mkVerifyResult true VERIFIED_OK, u4)
    | _, _ => (mkVerifyResult false NO_CODE_ISSUED, u)
    end.

Definition tooManyAttempts (remainingTime : Z) : string :=
  String.append "Too many attempts. Please wait "
    (String.append (Js.toString remainingTime)
       " minutes before requesting a new code.").

(** [canRequestVerificationCode()]: [now] is the reading of [Date.now()].
    [this.lastVerificationAttempt.getTime()] throws when the path is
    [undefined]. *)
Definition canRequestVerificationCode (now : Z) (u : User)
  : Js.Completion (CanRequestResult * User) :=
  if maxAttempts <=? verificationAttempts u
  then
    match lastVerificationAttempt u with
    | None =>
        Js.ThrowTypeError "Cannot read properties of undefined (reading 'getTime')"
    | Some last =>
        let timeSinceLastAttempt := now - last in
        if timeSinceLastAttempt <? cooldownPeriod
        then
          let remainingTime :=
            Js.ceil_div (cooldownPeriod - timeSinceLastAttempt) 60000 in
          Js.Normal (mkCanRequestResult false (Some (tooManyAttempts remainingTime)), u)
        else
          Js.Normal (mkCanRequestResult true None, set_verificationAttempts 0 u)
    end
  else Js.Normal (mkCanRequestResult true None, u).

(** ** Static method [cleanupExpiredCodes]

    [updateMany({ verificationCodeExpiry: { $lt: now } }, { $unset: ... })]
    on one document, and on the collection. *)
Definition cleanupDocument (now : Z) (u : User) : User :=
  match verificationCodeExpiry u with
  | Some expiry =>
      if expiry <? now
      then set_verificationCodeExpiry None (set_verificationCode None u)
      else u
  | None => u
  end.

Definition cleanupExpiredCodes (now : Z) (users : list User) : list User :=
  map (cleanupDocument now) users.

(** ** The state machine over one account *)

Inductive Op : Type :=
| OpGenerate (ttl k t1 t2 : Z)
| OpVerify (now : Z) (code : Js.Value)
| OpCanRequest (now : Z)
| OpCleanup (now : Z).

(** The document after one operation. A call that throws leaves the
    document as it was. *)
Definition step (op : Op) (u : User) : User :=
  match op with
  | OpGenerate ttl k t1 t2 => snd (generateVerificationCode ttl k t1 t2 u)
  | OpVerify now code => snd (verifyCode now code u)
  | OpCanRequest now =>
      match canRequestVerificationCode now u with
      | Js.Normal (_, u') => u'
      | Js.ThrowTypeError _ => u
      end
  | OpCleanup now => cleanupDocument now u
  end.

Definition run (ops : list Op) (u : User) : User :=
  fold_left (fun acc op => step op acc) ops u.

(** States reachable from a freshly created account. *)
Inductive Reachable : User -> Prop :=
| reach_new : forall phone pwd created, Reachable (newUser phone pwd created)
| reach_step : forall u op, Reachable u -> Reachable (step op u).

(** ** Derived notions and sample accounts *)

(** The number a string of decimal digits denotes, read from the left,
    [acc] being the value of the digits read so far. *)
Definition digitValue (c : ascii) : Z := Z.of_nat (nat_of_ascii c) - 48.

Fixpoint decimalValue (s : string) (acc : Z) : Z :=
  match s with
  | EmptyString => acc
  | String c s' => decimalValue s' (10 * acc + digitValue c)
  end.

(** The decimal expansion of a number of six digits. *)
Definition six_digits (n : Z) : string :=
  String (Js.digit_char (n / 10 / 10 / 10 / 10 / 10 mod 10))
 (String (Js.digit_char (n / 10 / 10 / 10 / 10 mod 10))
 (String (Js.digit_char (n / 10 / 10 / 10 mod 10))
 (String (Js.digit_char (n / 10 / 10 mod 10))
 (String (Js.digit_char (n / 10 mod 10))
 (String (Js.digit_char (n mod 10)) EmptyString))))).

(** An account that has used up its five attempts, the last one at time 0. *)
Definition throttledUser : User :=
  set_lastVerificationAttempt (Some 0)
    (set_verificationAttempts 5 (newUser "+15559998888" None 0)).

(** An account holding the code 123456 that expires at time 1000. *)
Definition pendingUser : User :=
  set_verificationCodeExpiry (Some 1000)
    (set_verificationCode (Some "123456"%string)
       (set_lastVerificationAttempt (Some 0)
          (set_verificationAttempts 1 (newUser "+15551230000" None 0)))).

(** An account whose counter has reached [2^53]. *)
Definition saturatedUser : User :=
  set_lastVerificationAttempt (Some 0)
    (set_verificationAttempts (2 ^ 53) (newUser "+15551230000" None 0)).

(** A verified account. *)
Definition verifiedUser : User :=
  snd (verifyCode 1000 (Js.Str "123456") pendingUser).

(** The counter is positive only after a generation, which stamps
    [lastVerificationAttempt]. *)
Definition stamped (u : User) : Prop :=
  1 <= verificationAttempts u -> exists t, lastVerificationAttempt u = Some t.

(** Five requests in a row, the way [requestPhoneVerification] makes them:
    the admission check, then the generation. *)
Definition fiveRequests : list Op :=
  [OpCanRequest 1000; OpGenerate 120000 0 1000 1000;
   OpCanRequest 2000; OpGenerate 120000 1 2000 2000;
   OpCanRequest 3000; OpGenerate 120000 2 3000 3000;
   OpCanRequest 4000; OpGenerate 120000 3 4000 4000;
   OpCanRequest 5000; OpGenerate 120000 4 5000 5000].

(** No code outstanding and the attempt counter at zero. *)
Definition cleared (u : User) : Prop :=
  verificationCode u = None
  /\ verificationCodeExpiry u = None
  /\ verificationAttempts u = 0.

(** Whether a code was generated after the last successful confirmation
    along [ops], started from [u] with the flag at [pending]. *)
Fixpoint generatedSinceVerified (ops : list Op) (u : User) (pending : bool) : bool :=
  match ops with
  | [] => pending
  | op :: rest =>
      generatedSinceVerified rest (step op u)
        match op with
        | OpGenerate _ _ _ _ => true
        | OpVerify now code =>
            if success (fst (verifyCode now code u)) then false else pending
        | OpCanRequest _ | OpCleanup _ => pending
        end
  end.

Definition clearedWhenVerified (u : User) (pending : bool) : Prop :=
  isPhoneVerified u = true -> pending = false -> cleared u.

(** A verified account asks for a new code: request, confirm, request
    again, as [requestPhoneVerification] and [confirmPhoneVerification]
    drive the model. *)
Definition requestAfterVerified : list Op :=
  [OpCanRequest 1000; OpGenerate 120000 0 1000 1000;
   OpVerify 1500 (Js.Str "100000");
   OpCanRequest 2000; OpGenerate 120000 0 2000 2000].

(** ** Phone number normalisation

    [sanitizePhoneNumber] and the custom rule of [validatePhoneNumber]
    (utils/validation.js), [formatPhoneNumber] (services/smsService.js),
    for string arguments. *)

Fixpoint filter_string (keep : ascii -> bool) (s : string) : string :=
  match s with
  | EmptyString => EmptyString
  | String c s' =>
      if keep c then String c (filter_string keep s') else filter_string keep s'
  end.

Definition is_plus (c : ascii) : bool := Ascii.eqb c "+"%char.

(** [s.replace(/[^\d+]/g, '')] *)
Definition removeNonDigitPlus (s : string) : string :=
  filter_string (fun c => Js.is_digit c || is_plus c) s.

(** [s.replace(/\D/g, '')] *)
Definition removeNonDigits (s : string) : string :=
  filter_string Js.is_digit s.

(** [s.startsWith('+')] *)
Definition startsWithPlus (s : string) : bool :=
  match s with
  | EmptyString => false
  | String c _ => is_plus c
  end.

(** [sanitizePhoneNumber(phoneNumber)] of utils/validation.js. *)
Definition sanitizePhoneNumber (phoneNumber : string) : string :=
  if Js.falsy_string (Some phoneNumber) then phoneNumber
  else
    let cleaned := removeNonDigitPlus phoneNumber in
    if negb (startsWithPlus cleaned)
    then
      if (String.length cleaned =? 10)%nat
      then String.append "+1" cleaned
      else String.append "+" cleaned
    else cleaned.

(** A call that returns a value or throws an error with a [name]. *)
Inductive Outcome (A : Type) : Type :=
| Return (a : A) : Outcome A
| Throw (name message : string) : Outcome A.
Arguments Return {A} a.
Arguments Throw {A} name message.

(** The function given to [.custom(...)] in [validatePhoneNumber] of
    utils/validation.js. *)
Definition phoneNumberRule (value : string) : Outcome bool :=
  let cleaned := removeNonDigitPlus value in
  let digits := removeNonDigits cleaned in
  if ((String.length digits <? 7) || (15 <? String.length digits))%nat
  then Throw "Error" "Phone number must be between 7 and 15 digits"
  else if (startsWithPlus cleaned && (7 <=? String.length digits)%nat)
  then Return true
  else if (10 <=? String.length digits)%nat
  then Return true
  else Throw "Error" "Please provide a valid phone number".

(** [formatPhoneNumber(phoneNumber)] of services/smsService.js. *)
Definition formatPhoneNumber (phoneNumber : string) : string :=
  let cleaned := removeNonDigits phoneNumber in
  if negb (startsWithPlus phoneNumber)
  then
    if (String.length cleaned =? 10)%nat
    then String.append "+1" cleaned
    else String.append "+" cleaned
  else phoneNumber.

(** ** Message transport (services/smsService.js) *)

Module Twilio.

(** The argument of [twilioClient.messages.create]. *)
Record Message : Type := mkMessage {
  body : string;
  from : option string;
  to : string
}.

(** What [messages.create] does: the message resource, or a rejection
    carrying Twilio's numeric [code], when it has one. *)
Inductive Created : Type :=
| Resource (sid status : string)
| Rejected (code : option Z) (message : string).

Definition Client : Type := Message -> Created.

End Twilio.

Module Sms.

(** The object [sendVerificationSMS] resolves to; a key that the returned
    object does not have is [None] ([false] for [mockMode]). *)
Record Result : Type := mkResult {
  success : bool;
  message : string;
  mockMode : bool;
  phoneNumber : option string;
  verificationCode : option string;
  messageId : option string;
  status : option string;
  error : option string;
  details : option string
}.

End Sms.

Definition messageBody (verificationCode : string) : string :=
  String.append "Your verification code is: "
    (String.append verificationCode
       ". This code will expire in 2 minutes. Do not share this code with anyone.").

(** [sendVerificationSMS(phoneNumber, verificationCode)]: [twilioClient]
    is the module's client, [None] when the credentials are missing, and
    [twilioFrom] is [process.env.TWILIO_PHONE_NUMBER]. *)
Definition sendVerificationSMS
  (twilioClient : option Twilio.Client) (twilioFrom : option string)
  (phoneNumber verificationCode : string) : Sms.Result :=
  let formattedPhoneNumber := formatPhoneNumber phoneNumber in
  match twilioClient with
  | None =>
      Sms.mkResult true "Verification code sent successfully (mock mode)" true
        (Some formattedPhoneNumber) (Some verificationCode) None None None None
  | Some client =>
      match client (Twilio.mkMessage (messageBody verificationCode)
                      twilioFrom formattedPhoneNumber) with
      | Twilio.Resource sid st =>
          Sms.mkResult true "Verification code sent successfully" false
            (Some formattedPhoneNumber) None (Some sid) (Some st) None None
      | Twilio.Rejected code msg =>
          let '(errorMessage, errorCode) :=
            match code with
            | Some 21211 => ("Invalid phone number format", "INVALID_PHONE_NUMBER")
            | Some 21408 =>
                ("Permission to send SMS to this number denied", "SMS_PERMISSION_DENIED")
            | Some 21610 =>
                ("Phone number is unsubscribed from SMS", "PHONE_UNSUBSCRIBED")
            | Some 20003 =>
                ("Authentication failed - check Twilio credentials", "TWILIO_AUTH_FAILED")
            | _ => ("Failed to send verification code", "SMS_SEND_FAILED")
            end%string in
          Sms.mkResult false errorMessage false None None None None
            (Some errorCode) (Some msg)
      end
  end.

(** ** Session tokens (middleware/auth.js) *)

(** A stored document: the account and its [_id]. *)
Record Doc : Type := mkDoc {
  _id : Z;
  fields : User
}.

Module Jwt.

(** The payload [generateToken] signs. *)
Record Claims : Type := mkClaims {
  userId : Z;
  phoneNumber : string;
  isPhoneVerified : bool
}.

(** What [jwt.verify] returns: the claims and the expiry [exp], in seconds,
    absent when the token was signed without [expiresIn]. *)
Record Decoded : Type := mkDecoded {
  claims : Claims;
  exp : option Z
}.

End Jwt.

(** [generateToken(user)]: [sign] stands for [jwt.sign] with the secret
    and the options of the process. *)
Definition generateToken (sign : Jwt.Claims -> string) (user : Doc) : string :=
  sign (Jwt.mkClaims (_id user) (phoneNumber (fields user))
          (isPhoneVerified (fields user))).

(** [String.prototype.split] on a one-character separator. *)
Fixpoint split (sep : ascii) (s : string) : list string :=
  match s with
  | EmptyString => [EmptyString]
  | String c s' =>
      if Ascii.eqb c sep then EmptyString :: split sep s'
      else
        match split sep s' with
        | [] => [String c EmptyString]
        | w :: ws => String c w :: ws
        end
  end.

(** [authHeader && authHeader.split(' ')[1]] *)
Definition tokenOfHeader (authHeader : option string) : option string :=
  match authHeader with
  | None => None
  | Some h =>
      if Js.falsy_string (Some h) then Some h
      else nth_error (split " "%char h) 1
  end.

(** What a middleware does: it calls [next()], with the [req.user] and
    [req.tokenData] it has set, or it ends the request with a status and a
    body [{ success: false, message, error }]. *)
Inductive Middleware : Type :=
| Next (user : option Doc) (tokenData : option Jwt.Decoded)
| Respond (status : Z) (message error : string).

(** [authenticateToken]: [verify] stands for [jwt.verify] with the secret
    of the process and [findById] for [User.findById]. *)
Definition authenticateToken
  (verify : string -> Outcome Jwt.Decoded)
  (findById : Z -> Outcome (option Doc))
  (authHeader : option string) : Middleware :=
  let rejected (name : string) :=
    if String.eqb name "TokenExpiredError"
    then Respond 401 "Token has expired" "TOKEN_EXPIRED"
    else if String.eqb name "JsonWebTokenError"
    then Respond 401 "Malformed token" "MALFORMED_TOKEN"
    else Respond 401 "Invalid token" "INVALID_TOKEN" in
  let token := tokenOfHeader authHeader in
  if Js.falsy_string token
  then Respond 401 "Access token required" "MISSING_TOKEN"
  else
    match token with
    | None => Respond 401 "Access token required" "MISSING_TOKEN"
    | Some t =>
        match verify t with
        | Throw name _ => rejected name
        | Return decoded =>
            match findById (Jwt.userId (Jwt.claims decoded)) with
            | Throw name _ => rejected name
            | Return None =>
                Respond 401 "Invalid token or user not found" "INVALID_TOKEN"
            | Return (Some user) =>
                if negb (isActive (fields user))
                then Respond 401 "Invalid token or user not found" "INVALID_TOKEN"
                else Next (Some user) (Some decoded)
            end
        end
    end.

(** [requirePhoneVerification], on the [req.user] left by the middleware
    before it. *)
Definition requirePhoneVerification (user : option Doc)
  (tokenData : option Jwt.Decoded) : Middleware :=
  match user with
  | None => Respond 403 "Phone number verification required" "PHONE_NOT_VERIFIED"
  | Some u =>
      if negb (isPhoneVerified (fields u))
      then Respond 403 "Phone number verification required" "PHONE_NOT_VERIFIED"
      else Next user tokenData
  end.

(** The middleware chain in front of [GET /api/auth/dashboard]. *)
Definition dashboardGate
  (verify : string -> Outcome Jwt.Decoded)
  (findById : Z -> Outcome (option Doc))
  (authHeader : option string) : Middleware :=
  match authenticateToken verify findById authHeader with
  | Next user tokenData => requirePhoneVerification user tokenData
  | Respond st msg err => Respond st msg err
  end.

(** [refreshTokenIfNeeded]: [nowMs] is the reading of [Date.now()]; the
    result is the value of the [X-New-Token] header, when it is set. With no
    [exp] the difference is [NaN] and the comparison is false. *)
Definition refreshTokenIfNeeded (sign : Jwt.Claims -> string) (nowMs : Z)
  (user : option Doc) (tokenData : option Jwt.Decoded) : option string :=
  match tokenData, user with
  | Some td, Some u =>
      let now := nowMs / 1000 in
      match Jwt.exp td with
      | Some tokenExp =>
          let timeUntilExpiry := tokenExp - now in
          if timeUntilExpiry <? 3600 then Some (generateToken sign u) else None
      | None => None
      end
  | _, _ => None
  end.

(** ** Controllers (controllers/authController.js) *)

Module Http.

(** The body built by [formatApiResponse]; [data] and [error] are keys the
    object has only when the argument is truthy. *)
Record ApiResponse (D : Type) : Type := mkApiResponse {
  success : bool;
  message : string;
  timestamp : Z;
  data : option D;
  error : option string
}.
Arguments mkApiResponse {D} _ _ _ _ _.
Arguments success {D} _.
Arguments message {D} _.
Arguments timestamp {D} _.
Arguments data {D} _.
Arguments error {D} _.

(** [res.status(status).json(json)] *)
Record Reply (D : Type) : Type := mkReply {
  status : Z;
  json : ApiResponse D
}.
Arguments mkReply {D} _ _.
Arguments status {D} _.
Arguments json {D} _.

End Http.

(** [formatApiResponse(success, message, data, error)] of
    utils/validation.js; [stamp] is the reading of [new Date()]. *)
Definition formatApiResponse {D : Type} (stamp : Z) (success : bool)
  (message : string) (data : option D) (error : option string)
  : Http.ApiResponse D :=
  Http.mkApiResponse success message stamp data
    (if Js.falsy_string error then None else error).

Module RequestData.

(** [responseData] of [requestPhoneVerification]. [expiresIn] holds the
    TTL in milliseconds; the number sent is this value divided by 1000. *)
Record t : Type := mk {
  phoneNumber : string;
  message : string;
  expiresIn : Z;
  attemptsRemaining : Z;
  verificationCode : option string;
  mockMode : bool
}.

End RequestData.

Module ConfirmData.

(** The data of the successful reply of [confirmPhoneVerification]. *)
Record t : Type := mk {
  id : Z;
  phoneNumber : string;
  isPhoneVerified : bool;
  verifiedAt : Z;
  token : string;
  nextStep : string
}.

End ConfirmData.

Module LoginData.

(** The data of the successful reply of [loginUser]. *)
Record t : Type := mk {
  id : Z;
  phoneNumber : string;
  isPhoneVerified : bool;
  lastLoginAt : option Z;
  token : string;
  nextStep : string
}.

End LoginData.

(** What a controller call does besides replying: the document it has
    saved, and the arguments of its call of [sendVerificationSMS]. *)
Record Handled (D : Type) : Type := mkHandled {
  reply : Http.Reply D;
  saved : option Doc;
  smsCall : option (string * string)
}.
Arguments mkHandled {D} _ _ _.
Arguments reply {D} _.
Arguments saved {D} _.
Arguments smsCall {D} _.

(** The readings of the clock and the draw made during one call of
    [requestPhoneVerification], in the order they are made. *)
Record RequestReads : Type := mkRequestReads {
  createdRead : Z;
  canRequestRead : Z;
  draw : Z;
  expiryRead : Z;
  attemptRead : Z;
  replyRead : Z
}.

(** [requestPhoneVerification]: [found] is what
    [User.findByPhoneNumber(phoneNumber)] resolves to, [newId] the [_id] of
    a document made by [new User], [save] tells whether [user.save()]
    resolves. Every error thrown on the way is caught and answered with
    status 500. *)
Definition requestPhoneVerification
  (ttl : Z) (reads : RequestReads) (newId : Z)
  (twilioClient : option Twilio.Client) (twilioFrom : option string)
  (save : Doc -> bool)
  (phone : string) (found : Outcome (option Doc))
  : Handled RequestData.t :=
  let failed :=
    mkHandled
      (Http.mkReply 500
         (formatApiResponse (replyRead reads) false
            "Failed to send verification code. Please try again."
            None (Some "VERIFICATION_REQUEST_FAILED"%string)))
      None None in
  match found with
  | Throw _ _ => failed
  | Return found' =>
      let user :=
        match found' with
        | Some d => d
        | None => mkDoc newId (newUser phone None (createdRead reads))
        end in
      match canRequestVerificationCode (canRequestRead reads) (fields user) with
      | Js.ThrowTypeError _ => failed
      | Js.Normal (can, u1) =>
          if negb (canRequest can)
          then
            mkHandled
              (Http.mkReply 429
                 (formatApiResponse (replyRead reads) false
                    (match canRequestMessage can with
                     | Some m => m
                     | None => EmptyString
                     end)
                    None (Some "RATE_LIMIT_EXCEEDED"%string)))
              None None
          else
            let (code, u2) :=
              generateVerificationCode ttl (draw reads) (expiryRead reads)
                (attemptRead reads) u1 in
            let user2 := mkDoc (_id user) u2 in
            if negb (save user2) then failed
            else
              let smsResult := sendVerificationSMS twilioClient twilioFrom phone code in
              if negb (Sms.success smsResult)
              then
                mkHandled
                  (Http.mkReply 500
                     (formatApiResponse (replyRead reads) false
                        (Sms.message smsResult) None (Sms.error smsResult)))
                  (Some user2) (Some (phone, code))
              else
                let responseData :=
                  RequestData.mk (phoneNumber u2) (Sms.message smsResult) ttl
                    (5 - verificationAttempts u2)
                    (if Sms.mockMode smsResult
                     then Sms.verificationCode smsResult else None)
                    (Sms.mockMode smsResult) in
                mkHandled
                  (Http.mkReply 200
                     (formatApiResponse (replyRead reads) true
                        "Verification code sent successfully"
                        (Some responseData) None))
                  (Some user2) (Some (phone, code))
      end
  end.

(** The document [confirmPhoneVerification] works on: the query selects
    [verificationCode], [verificationCodeExpiry] and [verificationAttempts]
    but not [lastVerificationAttempt], which is [undefined] in memory. *)
Definition selectForConfirm (d : Doc) : Doc :=
  mkDoc (_id d) (set_lastVerificationAttempt None (fields d)).

(** [user.save()] after [verifyCode]: the paths the method assigns are
    written to the stored document, the others stay as stored. *)
Definition saveVerification (stored inMemory : Doc) : Doc :=
  mkDoc (_id stored)
    (set_verificationAttempts (verificationAttempts (fields inMemory))
       (set_verificationCodeExpiry (verificationCodeExpiry (fields inMemory))
          (set_verificationCode (verificationCode (fields inMemory))
             (set_isPhoneVerified (isPhoneVerified (fields inMemory))
                (fields stored))))).

(** [confirmPhoneVerification]: [found] is the stored document of the
    phone number, [now] the reading of the clock in [verifyCode],
    [verifiedAt] and [stamp] the later readings made for the reply. *)
Definition confirmPhoneVerification
  (sign : Jwt.Claims -> string) (now verifiedAt stamp : Z)
  (save : Doc -> bool)
  (verificationCode : Js.Value) (found : Outcome (option Doc))
  : Handled ConfirmData.t :=
  let failed :=
    mkHandled
      (Http.mkReply 500
         (formatApiResponse stamp false "Verification failed. Please try again."
            None (Some "VERIFICATION_CONFIRM_FAILED"%string)))
      None None in
  match found with
  | Throw _ _ => failed
  | Return None =>
      mkHandled
        (Http.mkReply 404
           (formatApiResponse stamp false
              "No verification request found for this phone number"
              None (Some "USER_NOT_FOUND"%string)))
        None None
  | Return (Some stored) =>
      let user := selectForConfirm stored in
      let (verificationResult, u1) := verifyCode now verificationCode (fields user) in
      let written := saveVerification stored (mkDoc (_id user) u1) in
      if negb (save written) then failed
      else if negb (success verificationResult)
      then
        mkHandled
          (Http.mkReply 400
             (formatApiResponse stamp false (message verificationResult)
                None (Some "INVALID_VERIFICATION_CODE"%string)))
          (Some written) None
      else
        let token := generateToken sign (mkDoc (_id user) u1) in
        mkHandled
          (Http.mkReply 200
             (formatApiResponse stamp true "Phone number verified successfully"
                (Some (ConfirmData.mk (_id user) (phoneNumber u1)
                         (isPhoneVerified u1) verifiedAt token "dashboard"))
                None))
          (Some written) None
  end.

Definition set_lastLoginAt (t : option Z) (u : User) : User :=
  mkUser (phoneNumber u) (password u) (isPhoneVerified u) (verificationCode u)
         (verificationCodeExpiry u) (verificationAttempts u)
         (lastVerificationAttempt u) (isActive u) (createdAt u) t.

(** [loginUser]: [compare] stands for [bcrypt.compare], applied to the
    submitted password and the stored hash; [password] is the field of the
    request body. *)
Definition loginUser
  (sign : Jwt.Claims -> string) (compare : string -> string -> bool)
  (now stamp : Z) (save : Doc -> bool)
  (pwd : option string) (found : Outcome (option Doc))
  : Handled LoginData.t :=
  let failed :=
    mkHandled
      (Http.mkReply 500
         (formatApiResponse stamp false "Login failed. Please try again."
            None (Some "LOGIN_FAILED"%string)))
      None None in
  let refuse (msg err : string) :=
    mkHandled (Http.mkReply 401 (formatApiResponse stamp false msg None (Some err)))
      None None in
  match found with
  | Throw _ _ => failed
  | Return None => refuse "Invalid phone number or user not found"%string "INVALID_CREDENTIALS"%string
  | Return (Some user) =>
      if negb (isActive (fields user))
      then refuse "Invalid phone number or user not found"%string "INVALID_CREDENTIALS"%string
      else
        let proceed :=
          let user1 := mkDoc (_id user) (set_lastLoginAt (Some now) (fields user)) in
          if negb (save user1) then failed
          else
            mkHandled
              (Http.mkReply 200
                 (formatApiResponse stamp true "Login successful"
                    (Some (LoginData.mk (_id user1) (phoneNumber (fields user1))
                             (isPhoneVerified (fields user1))
                             (lastLoginAt (fields user1))
                             (generateToken sign user1)
                             (if isPhoneVerified (fields user1)
                              then "dashboard" else "phone_verification")))
                    None))
              (Some user1) None in
        if negb (Js.falsy_string (password (fields user))) && negb (Js.falsy_string pwd)
        then
          match password (fields user), pwd with
          | Some hash, Some candidate =>
              if negb (compare candidate hash)
              then refuse "Invalid password"%string "INVALID_PASSWORD"%string
              else proceed
          | _, _ => proceed
          end
        else if negb (Js.falsy_string (password (fields user))) && Js.falsy_string pwd
        then refuse "Password is required for this account"%string "PASSWORD_REQUIRED"%string
        else proceed
  end.

(** ** In-memory request limiter ([validateRateLimit], utils/validation.js) *)

Module RateLimit.

(** The value kept per caller. *)
Record Entry : Type := mkEntry {
  count : Z;
  resetTime : Z
}.

(** The [Map] of the closure, in insertion order. *)
Definition Requests : Type := list (string * Entry).

Fixpoint get (key : string) (requests : Requests) : option Entry :=
  match requests with
  | [] => None
  | (k, v) :: rest => if String.eqb key k then Some v else get key rest
  end.

(** [requests.set(key, value)]: an existing key keeps its place. *)
Fixpoint set (key : string) (value : Entry) (requests : Requests) : Requests :=
  match requests with
  | [] => [(key, value)]
  | (k, v) :: rest =>
      if String.eqb key k then (k, value) :: rest
      else (k, v) :: set key value rest
  end.

(** The middleware either calls [next()] or answers 429 with the minutes
    to wait. *)
Inductive Verdict : Type :=
| Pass
| TooMany (retryAfter : Z).

(** The function returned by [validateRateLimit(maxRequests, windowMs)],
    on the request of caller [key] at time [now]. The two divisions of
    [Math.ceil((resetTime - now) / 1000 / 60)] are taken together, which
    gives the same integer for differences of time values. *)
Definition middleware (maxRequests windowMs : Z) (key : string) (now : Z)
  (requests : Requests) : Verdict * Requests :=
  match get key requests with
  | None => (Pass, set key (mkEntry 1 (now + windowMs)) requests)
  | Some requestData =>
      if resetTime requestData <? now
      then (Pass, set key (mkEntry 1 (now + windowMs)) requests)
      else if maxRequests <=? count requestData
      then (TooMany (Js.ceil_div (resetTime requestData - now) 60000), requests)
      else (Pass, set key (mkEntry (count requestData + 1) (resetTime requestData))
                    requests)
  end.

(** The requests of one caller at the times [times], in order: the
    verdicts and the map left behind. *)
Fixpoint serve (maxRequests windowMs : Z) (key : string) (times : list Z)
  (requests : Requests) : list Verdict * Requests :=
  match times with
  | [] => ([], requests)
  | now :: later =>
      let (v, requests1) := middleware maxRequests windowMs key now requests in
      let (vs, requests2) := serve maxRequests windowMs key later requests1 in
      (v :: vs, requests2)
  end.

Definition passed (vs : list Verdict) : Z :=
  Z.of_nat (List.length (filter (fun v => match v with Pass => true | _ => false end) vs)).

End RateLimit.

(** ** Notions used by the invariants below *)

(** A code is stored together with its expiry, and is never the empty
    string. *)
Definition paired (u : User) : Prop :=
  (verificationCode u = None <-> verificationCodeExpiry u = None)
  /\ verificationCode u <> Some EmptyString.

(** The document [requestPhoneVerification] works on: the one found, or a
    new one for an unseen number. *)
Definition requestedAccount (newId : Z) (phone : string) (created : Z)
  (found : option Doc) : Doc :=
  match found with
  | Some d => d
  | None => mkDoc newId (newUser phone None created)
  end.

(** Whether the character [c] occurs in [s]. *)
Fixpoint containsChar (c : ascii) (s : string) : bool :=
  match s with
  | EmptyString => false
  | String c' s' => Ascii.eqb c' c || containsChar c s'
  end.

(** [optionalAuth] of middleware/auth.js: it always calls [next()], with
    [req.user] and [req.tokenData] set only when the token is accepted and
    names an active account; whatever is thrown is caught and logged. *)
Definition optionalAuth
  (verify : string -> Outcome Jwt.Decoded)
  (findById : Z -> Outcome (option Doc))
  (authHeader : option string) : Middleware :=
  let token := tokenOfHeader authHeader in
  if Js.falsy_string token then Next None None
  else
    match token with
    | None => Next None None
    | Some t =>
        match verify t with
        | Throw _ _ => Next None None
        | Return decoded =>
            match findById (Jwt.userId (Jwt.claims decoded)) with
            | Throw _ _ => Next None None
            | Return None => Next None None
            | Return (Some user) =>
                if isActive (fields user)
                then Next (Some user) (Some decoded)
                else Next None None
            end
        end
    end.

(** ** Lemmas on the JavaScript primitives *)

(** Replace a closed integer expression by its value. *)
Ltac evalZ e := let v := eval vm_compute in e in change e with v in *.

Section Rounding.

Lemma roundTiesToEven_le_grid (s m b : Z) :
  0 <= s -> m <= b * 2 ^ s -> Js.roundTiesToEven s m <= b * 2 ^ s.
Proof.
  intros Hs Hm. unfold Js.roundTiesToEven.
  assert (Hp : 0 < 2 ^ s) by (apply Z.pow_pos_nonneg; lia).
  pose proof (Z.div_mod m (2 ^ s) ltac:(lia)) as Hdm.
  pose proof (Z.mod_pos_bound m (2 ^ s) Hp) as Hr.
  set (P := 2 ^ s) in *. set (q := m / P) in *. set (r := m mod P) in *.
  assert (Hq : q <= b) by nia.
  assert (Hcase : q < b \/ (q = b /\ r = 0)) by nia.
  destruct (2 * r <? P) eqn:E1; [nia|].
  destruct (P <? 2 * r) eqn:E2.
  - apply Z.ltb_lt in E2. destruct Hcase as [Hlt | [_ Hr0]]; [nia | lia].
  - apply Z.ltb_ge in E1. apply Z.ltb_ge in E2.
    destruct (Z.even q); [nia|].
    destruct Hcase as [Hlt | [_ Hr0]]; [nia | lia].
Qed.

Lemma roundTiesToEven_ge_grid (s m b : Z) :
  0 <= s -> b * 2 ^ s <= m -> b * 2 ^ s <= Js.roundTiesToEven s m.
Proof.
  intros Hs Hm. unfold Js.roundTiesToEven.
  assert (Hp : 0 < 2 ^ s) by (apply Z.pow_pos_nonneg; lia).
  pose proof (Z.div_mod m (2 ^ s) ltac:(lia)) as Hdm.
  pose proof (Z.mod_pos_bound m (2 ^ s) Hp) as Hr.
  set (P := 2 ^ s) in *. set (q := m / P) in *. set (r := m mod P) in *.
  assert (Hq : b <= q) by nia.
  destruct (2 * r <? P); [nia|].
  destruct (P <? 2 * r); [nia|].
  destruct (Z.even q); nia.
Qed.

(** The rounding exponent of a number below [2^(j+53)] is at most [j]. *)
Lemma rounding_exponent (m j : Z) :
  0 <= j -> 2 ^ 53 <= m < 2 ^ (j + 53) -> 1 <= Z.log2 m - 52 <= j.
Proof.
  intros Hj [Hlo Hhi].
  assert (Hm : 0 < m) by (pose proof (Z.pow_pos_nonneg 2 53); lia).
  apply Z.log2_le_pow2 in Hlo; [|exact Hm].
  apply Z.log2_lt_pow2 in Hhi; [|exact Hm].
  lia.
Qed.

Lemma grid_refine (b j s : Z) :
  0 <= s <= j -> b * 2 ^ j = (b * 2 ^ (j - s)) * 2 ^ s.
Proof.
  intros H. rewrite <- Z.mul_assoc, <- Z.pow_add_r by lia.
  f_equal. f_equal. lia.
Qed.

Lemma fl_le_grid (m j b : Z) :
  0 <= j -> m < 2 ^ (j + 53) -> m <= b * 2 ^ j -> Js.fl m <= b * 2 ^ j.
Proof.
  intros Hj Hhi Hm. unfold Js.fl.
  destruct (m <? 2 ^ 53) eqn:E; [exact Hm|].
  apply Z.ltb_ge in E.
  pose proof (rounding_exponent m j Hj (conj E Hhi)) as Hs.
  rewrite (grid_refine b j (Z.log2 m - 52)) in * by lia.
  apply roundTiesToEven_le_grid; lia.
Qed.

Lemma fl_ge_grid (m j b : Z) :
  0 <= j -> m < 2 ^ (j + 53) -> b * 2 ^ j <= m -> b * 2 ^ j <= Js.fl m.
Proof.
  intros Hj Hhi Hm. unfold Js.fl.
  destruct (m <? 2 ^ 53) eqn:E; [exact Hm|].
  apply Z.ltb_ge in E.
  pose proof (rounding_exponent m j Hj (conj E Hhi)) as Hs.
  rewrite (grid_refine b j (Z.log2 m - 52)) in * by lia.
  apply roundTiesToEven_ge_grid; lia.
Qed.

(** [Math.random() * 900000] never rounds up to [900000]: the largest
    product is the double just below it, [900000 - 2^-33]. *)
Lemma random_times_900000_bound (k : Z) :
  Js.random_draw k ->
  0 <= Js.fl (k * 900000) <= (900000 * 2 ^ 33 - 1) * 2 ^ 20.
Proof.
  unfold Js.random_draw. intros Hk. evalZ (2 ^ 53).
  split.
  - change 0 with (0 * 2 ^ 20). apply fl_ge_grid; [lia | | lia].
    evalZ (2 ^ (20 + 53)). lia.
  - destruct (Z_le_gt_dec (k * 900000) ((900000 * 2 ^ 33 - 1) * 2 ^ 20))
      as [Hle | Hgt].
    + apply fl_le_grid; [lia | | exact Hle].
      evalZ (2 ^ (20 + 53)). lia.
    + evalZ ((900000 * 2 ^ 33 - 1) * 2 ^ 20).
      unfold Js.fl. evalZ (2 ^ 53).
      destruct (k * 900000 <? 9007199254740992) eqn:E;
        [apply Z.ltb_lt in E; lia|].
      assert (Hlog : Z.log2 (k * 900000) = 72).
      { apply Z.log2_unique; [lia|].
        evalZ (2 ^ 72). evalZ (2 ^ (72 + 1)). lia. }
      rewrite Hlog. unfold Js.roundTiesToEven.
      evalZ (2 ^ (72 - 52)).
      set (m := k * 900000) in *.
      pose proof (Z.div_mod m 1048576 ltac:(lia)) as Hdm.
      pose proof (Z.mod_pos_bound m 1048576 ltac:(lia)) as Hrm.
      assert (Hq : m / 1048576 = 900000 * 2 ^ 33 - 1) by
        (evalZ (900000 * 2 ^ 33 - 1); lia).
      rewrite Hq in *. evalZ (900000 * 2 ^ 33 - 1).
      destruct (2 * (m mod 1048576) <? 1048576) eqn:E1.
      * lia.
      * apply Z.ltb_ge in E1. lia.
Qed.

(** The generated number lies in [100000, 999999] for every draw. *)
Lemma code_number_range (k : Z) :
  Js.random_draw k ->
  100000 <= Js.floor_lo_plus_random_times 100000 900000 k <= 999999.
Proof.
  intros Hk. pose proof (random_times_900000_bound k Hk) as Hp.
  unfold Js.floor_lo_plus_random_times, Js.unit_bits.
  set (p := Js.fl (k * 900000)) in *.
  assert (Hlo : (100000 * 2 ^ 33) * 2 ^ 20 <= Js.fl (100000 * 2 ^ 53 + p)).
  { apply fl_ge_grid; [lia | |].
    - evalZ (2 ^ (20 + 53)). evalZ (2 ^ 53).
      evalZ ((900000 * 2 ^ 33 - 1) * 2 ^ 20). lia.
    - evalZ (100000 * 2 ^ 33 * 2 ^ 20). evalZ (2 ^ 53). lia. }
  assert (Hhi : Js.fl (100000 * 2 ^ 53 + p) <= (1000000 * 2 ^ 33 - 1) * 2 ^ 20).
  { apply fl_le_grid; [lia | |].
    - evalZ (2 ^ (20 + 53)). evalZ (2 ^ 53).
      evalZ ((900000 * 2 ^ 33 - 1) * 2 ^ 20). lia.
    - evalZ ((1000000 * 2 ^ 33 - 1) * 2 ^ 20). evalZ (2 ^ 53).
      evalZ ((900000 * 2 ^ 33 - 1) * 2 ^ 20). lia. }
  set (x := Js.fl (100000 * 2 ^ 53 + p)) in *.
  evalZ (100000 * 2 ^ 33 * 2 ^ 20).
  evalZ ((1000000 * 2 ^ 33 - 1) * 2 ^ 20).
  evalZ (2 ^ 53).
  split.
  - apply Z.div_le_lower_bound; lia.
  - assert (x / 9007199254740992 < 1000000); [|lia].
    apply Z.div_lt_upper_bound; lia.
Qed.

(** Adding 1 is exact as long as the counter is within [2^53] in
    magnitude and below it. *)
Lemma add_one_exact (n : Z) :
  - 2 ^ 53 <= n < 2 ^ 53 -> Js.add n 1 = n + 1.
Proof.
  intros Hn. unfold Js.add, Js.round, Js.fl.
  evalZ (2 ^ 53).
  destruct (Z.ltb_spec (n + 1) 0) as [Hneg | Hpos].
  - destruct (Z.ltb_spec (- (n + 1)) 9007199254740992); lia.
  - destruct (Z.ltb_spec (n + 1) 9007199254740992) as [Hlt | Hge]; [reflexivity|].
    assert (E : n + 1 = 9007199254740992) by lia. rewrite E. reflexivity.
Qed.

Lemma generate_counter (ttl k t1 t2 : Z) (u : User) :
  verificationAttempts (snd (generateVerificationCode ttl k t1 t2 u)) =
  Js.add (verificationAttempts u) 1.
Proof. reflexivity. Qed.

End Rounding.

(** The two ends of the range are hit by the smallest and the largest
    draw. *)
Example code_of_smallest_draw :
  Js.toString (Js.floor_lo_plus_random_times 100000 900000 0) = "100000"%string.
Proof. vm_compute. reflexivity. Qed.

Example code_of_largest_draw :
  Js.toString (Js.floor_lo_plus_random_times 100000 900000 (2 ^ 53 - 1)) =
  "999999"%string.
Proof. vm_compute. reflexivity. Qed.

Section NumberToString.

Lemma is_digit_digit_char (d : Z) :
  0 <= d <= 9 -> Js.is_digit (Js.digit_char d) = true.
Proof.
  intros H.
  assert (Hd : d = 0 \/ d = 1 \/ d = 2 \/ d = 3 \/ d = 4 \/
               d = 5 \/ d = 6 \/ d = 7 \/ d = 8 \/ d = 9) by lia.
  repeat (destruct Hd as [Hd | Hd]; [subst d; reflexivity|]).
  subst d; reflexivity.
Qed.

Lemma digit_char_zero (d : Z) :
  0 <= d <= 9 -> Js.digit_char d = "0"%char -> d = 0.
Proof.
  intros H.
  assert (Hd : d = 0 \/ d = 1 \/ d = 2 \/ d = 3 \/ d = 4 \/
               d = 5 \/ d = 6 \/ d = 7 \/ d = 8 \/ d = 9) by lia.
  repeat (destruct Hd as [Hd | Hd]; [subst d; intros E; (reflexivity || discriminate E)|]).
  subst d; intros E; discriminate E.
Qed.

(** One more digit is consumed while the quotient is not zero. *)
Lemma digits_more (fuel : nat) (n : Z) (acc : string) :
  n / 10 <> 0 ->
  Js.digits (S fuel) n acc =
  Js.digits fuel (n / 10) (String (Js.digit_char (n mod 10)) acc).
Proof.
  intros H. cbn [Js.digits].
  destruct (Z.eqb_spec (n / 10) 0); [contradiction | reflexivity].
Qed.

Lemma digits_last (fuel : nat) (n : Z) (acc : string) :
  n / 10 = 0 ->
  Js.digits (S fuel) n acc = String (Js.digit_char (n mod 10)) acc.
Proof.
  intros H. cbn [Js.digits]. rewrite H. reflexivity.
Qed.

(** The accumulator is a suffix of the result, so the result is empty
    only when no digit is produced into an empty accumulator. *)
Lemma digits_nonempty (fuel : nat) (n : Z) (acc : string) :
  acc <> EmptyString -> Js.digits fuel n acc <> EmptyString.
Proof.
  revert n acc. induction fuel as [|fuel IH]; intros n acc Hacc; cbn [Js.digits].
  - exact Hacc.
  - destruct (n / 10 =? 0); [discriminate|]. apply IH. discriminate.
Qed.

Lemma toString_nonempty (n : Z) :
  Js.falsy_string (Some (Js.toString n)) = false.
Proof.
  unfold Js.toString. destruct (n <? 0); [reflexivity|].
  cbn [Js.digits].
  destruct (n / 10 =? 0); [reflexivity|].
  match goal with
  | |- Js.falsy_string (Some ?s) = false =>
      assert (Hs : s <> EmptyString) by (apply digits_nonempty; discriminate);
      destruct s; [contradiction | reflexivity]
  end.
Qed.

Lemma toString_six_digits (n : Z) :
  100000 <= n <= 999999 -> Js.toString n = six_digits n.
Proof.
  intros Hn. unfold Js.toString, six_digits.
  destruct (Z.ltb_spec n 0); [lia|].
  assert (Hlog : 16 <= Z.log2 n).
  { apply Z.log2_le_pow2; [lia|]. evalZ (2 ^ 16). lia. }
  assert (Hf : exists f, Z.to_nat (Z.log2 n) = (5 + f)%nat)
    by (exists (Z.to_nat (Z.log2 n) - 5)%nat; lia).
  destruct Hf as [f ->]. cbn [Nat.add].
  rewrite !digits_more by (Z.div_mod_to_equations; lia).
  rewrite digits_last by (Z.div_mod_to_equations; lia).
  reflexivity.
Qed.

Lemma six_digits_all_digits (n : Z) : Js.all_digits (six_digits n) = true.
Proof.
  unfold six_digits. cbn [Js.all_digits].
  rewrite !is_digit_digit_char by (apply Z.mod_pos_bound || idtac; Z.div_mod_to_equations; lia).
  reflexivity.
Qed.

Lemma six_digits_leading (n : Z) :
  100000 <= n <= 999999 -> String.get 0 (six_digits n) <> Some "0"%char.
Proof.
  intros Hn E. unfold six_digits in E. cbn [String.get] in E.
  injection E as E. apply digit_char_zero in E;
    Z.div_mod_to_equations; lia.
Qed.

Lemma digits_all_digits (fuel : nat) :
  forall (n : Z) (acc : string),
    0 <= n -> Js.all_digits acc = true -> Js.all_digits (Js.digits fuel n acc) = true.
Proof.
  induction fuel as [|fuel IH]; intros n acc Hn Hacc; cbn [Js.digits]; [exact Hacc|].
  assert (Hd : Js.all_digits (String (Js.digit_char (n mod 10)) acc) = true).
  { cbn [Js.all_digits]. rewrite is_digit_digit_char, Hacc; [reflexivity|].
    pose proof (Z.mod_pos_bound n 10 ltac:(lia)). lia. }
  destruct (n / 10 =? 0); [exact Hd|].
  apply IH; [apply Z.div_pos; lia | exact Hd].
Qed.

(** The decimal form of a number that is not negative is made of digits. *)
Lemma toString_all_digits (n : Z) :
  0 <= n -> Js.all_digits (Js.toString n) = true.
Proof.
  intros Hn. unfold Js.toString.
  destruct (Z.ltb_spec n 0); [lia|].
  apply digits_all_digits; [exact Hn | reflexivity].
Qed.

Lemma digitValue_digit_char (d : Z) :
  0 <= d <= 9 -> digitValue (Js.digit_char d) = d.
Proof.
  intros H.
  assert (Hd : d = 0 \/ d = 1 \/ d = 2 \/ d = 3 \/ d = 4 \/
               d = 5 \/ d = 6 \/ d = 7 \/ d = 8 \/ d = 9) by lia.
  repeat (destruct Hd as [Hd | Hd]; [subst d; reflexivity|]).
  subst d; reflexivity.
Qed.

(** Reading back what [Js.digits] writes: the digits of [n] are read
    before the accumulator. *)
Lemma decimalValue_digits (fuel : nat) :
  forall (n : Z) (acc : string),
    0 <= n < 2 ^ Z.of_nat fuel ->
    exists k : Z,
      0 <= k
      /\ forall v, decimalValue (Js.digits fuel n acc) v =
                   decimalValue acc (v * 10 ^ k + n).
Proof.
  induction fuel as [|fuel IH]; intros n acc Hn.
  - exists 0. split; [lia|]. intros v. cbn [Js.digits].
    change (2 ^ Z.of_nat 0) with 1 in Hn. f_equal. lia.
  - cbn [Js.digits].
    pose proof (Z.div_mod n 10 ltac:(lia)) as Hdm.
    pose proof (Z.mod_pos_bound n 10 ltac:(lia)) as Hr.
    destruct (Z.eqb_spec (n / 10) 0) as [Hz | Hnz].
    + exists 1. split; [lia|]. intros v. cbn [decimalValue].
      rewrite digitValue_digit_char by lia. f_equal. lia.
    + assert (Hq : 0 <= n / 10 < 2 ^ Z.of_nat fuel).
      { split; [apply Z.div_pos; lia|].
        rewrite Nat2Z.inj_succ, Z.pow_succ_r in Hn by lia.
        apply Z.div_lt_upper_bound; lia. }
      destruct (IH (n / 10) (String (Js.digit_char (n mod 10)) acc) Hq)
        as (k & Hk & Hval).
      exists (k + 1). split; [lia|]. intros v. rewrite Hval.
      cbn [decimalValue]. rewrite digitValue_digit_char by lia.
      f_equal. rewrite Z.pow_add_r by lia. lia.
Qed.

(** [Js.toString] writes the decimal form: reading it back gives the
    number. *)
Lemma decimalValue_toString (n : Z) :
  0 <= n -> decimalValue (Js.toString n) 0 = n.
Proof.
  intros Hn. unfold Js.toString.
  destruct (Z.ltb_spec n 0); [lia|].
  assert (Hfuel : 0 <= n < 2 ^ Z.of_nat (S (Z.to_nat (Z.log2 n)))).
  { split; [exact Hn|].
    rewrite Nat2Z.inj_succ, Z2Nat.id by apply Z.log2_nonneg.
    destruct (Z.eq_dec n 0) as [-> | Hnz]; [reflexivity|].
    apply Z.log2_spec. lia. }
  destruct (decimalValue_digits _ n EmptyString Hfuel) as (k & _ & Hval).
  rewrite Hval. cbn [decimalValue]. lia.
Qed.

End NumberToString.

(** ** Admission check *)

Section Admission.

Lemma ceil_div_spec (x d : Z) :
  0 < d -> d * (Js.ceil_div x d - 1) < x <= d * Js.ceil_div x d.
Proof.
  intros Hd. unfold Js.ceil_div.
  pose proof (Z.div_mod (- x) d ltac:(lia)) as Hdm.
  pose proof (Z.mod_pos_bound (- x) d Hd) as Hr.
  nia.
Qed.

Lemma canRequest_below_cap (now : Z) (u : User) :
  verificationAttempts u < maxAttempts ->
  canRequestVerificationCode now u = Js.Normal (mkCanRequestResult true None, u).
Proof.
  intros H. unfold canRequestVerificationCode.
  destruct (Z.leb_spec maxAttempts (verificationAttempts u)); [lia | reflexivity].
Qed.

Lemma canRequest_cooling_down (now last : Z) (u : User) :
  maxAttempts <= verificationAttempts u ->
  lastVerificationAttempt u = Some last ->
  now - last < cooldownPeriod ->
  canRequestVerificationCode now u =
  Js.Normal (mkCanRequestResult false
               (Some (tooManyAttempts
                        (Js.ceil_div (cooldownPeriod - (now - last)) 60000))), u).
Proof.
  intros Hcap Hlast Hel. unfold canRequestVerificationCode. rewrite Hlast.
  destruct (Z.leb_spec maxAttempts (verificationAttempts u)); [|lia].
  destruct (Z.ltb_spec (now - last) cooldownPeriod); [reflexivity | lia].
Qed.

Lemma canRequest_cooled_down (now last : Z) (u : User) :
  maxAttempts <= verificationAttempts u ->
  lastVerificationAttempt u = Some last ->
  cooldownPeriod <= now - last ->
  canRequestVerificationCode now u =
  Js.Normal (mkCanRequestResult true None, set_verificationAttempts 0 u).
Proof.
  intros Hcap Hlast Hel. unfold canRequestVerificationCode. rewrite Hlast.
  destruct (Z.leb_spec maxAttempts (verificationAttempts u)); [|lia].
  destruct (Z.ltb_spec (now - last) cooldownPeriod); [lia | reflexivity].
Qed.

End Admission.

(** C1. Admission policy of [canRequestVerificationCode]: below 5 attempts
    the check allows and leaves the account as it is; with 5 or more
    attempts and less than 15 minutes (900000 ms) since
    [lastVerificationAttempt] it denies, and the message reads "Too many
    attempts. Please wait N minutes before requesting a new code.", where N
    is the decimal form (digits that read back as the number) of the
    remaining time in minutes rounded up, a positive number; with 5 or more
    attempts and 15 minutes or more elapsed it sets [verificationAttempts]
    to 0 and allows. *)
Theorem canRequest_admission_policy (now : Z) (u : User) :
  (verificationAttempts u < 5 ->
   canRequestVerificationCode now u =
   Js.Normal (mkCanRequestResult true None, u))
  /\
  (forall last,
      5 <= verificationAttempts u ->
      lastVerificationAttempt u = Some last ->
      now - last < 15 * 60 * 1000 ->
      exists remaining,
        canRequestVerificationCode now u =
        Js.Normal
          (mkCanRequestResult false
             (Some (String.append "Too many attempts. Please wait "
                      (String.append (Js.toString remaining)
                         " minutes before requesting a new code."))),
           u)
        /\ 0 < remaining
        /\ 60000 * (remaining - 1) < 15 * 60 * 1000 - (now - last) <= 60000 * remaining
        /\ Js.all_digits (Js.toString remaining) = true
        /\ decimalValue (Js.toString remaining) 0 = remaining)
  /\
  (forall last,
      5 <= verificationAttempts u ->
      lastVerificationAttempt u = Some last ->
      15 * 60 * 1000 <= now - last ->
      canRequestVerificationCode now u =
      Js.Normal (mkCanRequestResult true None, set_verificationAttempts 0 u)
      /\ verificationAttempts (set_verificationAttempts 0 u) = 0).
Proof.
  split; [|split].
  - apply canRequest_below_cap.
  - intros last Hcap Hlast Hel.
    exists (Js.ceil_div (cooldownPeriod - (now - last)) 60000).
    pose proof (ceil_div_spec (cooldownPeriod - (now - last)) 60000 ltac:(lia)) as Hc.
    unfold cooldownPeriod in *.
    assert (Hpos : 0 < Js.ceil_div (15 * 60 * 1000 - (now - last)) 60000) by lia.
    split; [|split; [|split; [|split]]].
    + apply canRequest_cooling_down; unfold maxAttempts, cooldownPeriod; assumption.
    + exact Hpos.
    + exact Hc.
    + apply toString_all_digits. lia.
    + apply decimalValue_toString. lia.
  - intros last Hcap Hlast Hel. split; [|reflexivity].
    apply (canRequest_cooled_down now last); unfold maxAttempts, cooldownPeriod; assumption.
Qed.

Lemma canRequest_admission_policy_witness :
  canRequestVerificationCode 1000 (newUser "+15559998888" None 0) =
  Js.Normal (mkCanRequestResult true None, newUser "+15559998888" None 0)
  /\
  canRequestVerificationCode 60001 throttledUser =
  Js.Normal
    (mkCanRequestResult false
       (Some "Too many attempts. Please wait 14 minutes before requesting a new code."%string),
     throttledUser)
  /\
  (canRequestVerificationCode 900000 throttledUser =
   Js.Normal (mkCanRequestResult true None, set_verificationAttempts 0 throttledUser)
   /\ verificationAttempts (set_verificationAttempts 0 throttledUser) = 0).
Proof.
  split; [|split].
  - apply (proj1 (canRequest_admission_policy 1000 (newUser "+15559998888" None 0))).
    simpl. lia.
  - destruct (proj1 (proj2 (canRequest_admission_policy 60001 throttledUser)) 0)
      as (remaining & Hreply & Hpos & Hbounds & _).
    + simpl. lia.
    + reflexivity.
    + lia.
    + assert (E : remaining = 14) by lia. rewrite E in Hreply. exact Hreply.
  - apply (proj2 (proj2 (canRequest_admission_policy 900000 throttledUser)) 0).
    + simpl. lia.
    + reflexivity.
    + lia.
Defined.

(** ** Confirmation *)

Section Confirmation.

Variables (now : Z) (cand : Js.Value) (u : User).

Lemma verifyCode_no_code :
  verificationCode u = None \/ verificationCode u = Some EmptyString \/
  verificationCodeExpiry u = None ->
  verifyCode now cand u = (mkVerifyResult false NO_CODE_ISSUED, u).
Proof.
  unfold verifyCode. intros [H | [H | H]]; rewrite H.
  - reflexivity.
  - reflexivity.
  - rewrite orb_true_r. reflexivity.
Qed.

(** With a code outstanding the first guard is passed, and the call is
    decided by the expiry comparison and the strict inequality. *)
Lemma verifyCode_outstanding (c : string) (e : Z) :
  verificationCode u = Some c -> c <> EmptyString ->
  verificationCodeExpiry u = Some e ->
  verifyCode now cand u =
  if e <? now then (mkVerifyResult false CODE_EXPIRED, u)
  else if Js.strict_neq c cand then (mkVerifyResult false CODE_MISMATCH, u)
  else (mkVerifyResult true VERIFIED_OK,
        set_verificationAttempts 0
          (set_verificationCodeExpiry None
             (set_verificationCode None (set_isPhoneVerified true u)))).
Proof.
  intros Hc Hne He. unfold verifyCode. rewrite Hc, He.
  destruct c; [contradiction | reflexivity].
Qed.

End Confirmation.

Lemma strict_neq_same (c : string) : Js.strict_neq c (Js.Str c) = false.
Proof. simpl. rewrite String.eqb_refl. reflexivity. Qed.

Lemma strict_neq_iff (c : string) (v : Js.Value) :
  Js.strict_neq c v = true <-> v <> Js.Str c.
Proof.
  destruct v; simpl; try (split; [discriminate | reflexivity]).
  destruct (String.eqb_spec c s) as [-> | Hne]; simpl.
  - split; [discriminate | intros H; contradiction H; reflexivity].
  - split; [intros _ E; injection E as E; auto | reflexivity].
Qed.

(** C2, as claimed, fails: at the exact expiry instant the comparison
    [expiry < now] is false, so the matching code is accepted. *)
Lemma expiry_inclusive_counterexample :
  ~ (forall (now : Z) (cand : Js.Value) (u : User) (c : string) (e : Z),
        verificationCode u = Some c -> c <> EmptyString ->
        verificationCodeExpiry u = Some e ->
        e <= now ->
        fst (verifyCode now cand u) = mkVerifyResult false CODE_EXPIRED).
Proof.
  intros H.
  specialize (H 1000 (Js.Str "123456") pendingUser "123456"%string 1000
                eq_refl ltac:(discriminate) eq_refl ltac:(lia)).
  vm_compute in H. discriminate H.
Qed.

(** C2, amended. For every account with a code outstanding and every
    candidate, [verifyCode] fails with CODE_EXPIRED exactly when the
    current time is strictly greater than the stored expiry; at the exact
    expiry instant the code is not rejected as expired, and a matching
    candidate still succeeds. *)
Theorem verifyCode_expired_iff_strictly_after
  (now : Z) (cand : Js.Value) (u : User) (c : string) (e : Z) :
  verificationCode u = Some c -> c <> EmptyString ->
  verificationCodeExpiry u = Some e ->
  (fst (verifyCode now cand u) = mkVerifyResult false CODE_EXPIRED <-> e < now)
  /\ (e = now -> message (fst (verifyCode now cand u)) <> CODE_EXPIRED)
  /\ (e = now -> cand = Js.Str c ->
      fst (verifyCode now cand u) = mkVerifyResult true VERIFIED_OK).
Proof.
  intros Hc Hne He. rewrite (verifyCode_outstanding now cand u c e Hc Hne He).
  destruct (Z.ltb_spec e now) as [Hlt | Hge].
  - split; [split; [intros _; exact Hlt | reflexivity] | split; lia].
  - split; [|split].
    + split; [|lia]. destruct (Js.strict_neq c cand); discriminate.
    + intros _. destruct (Js.strict_neq c cand); discriminate.
    + intros _ ->. rewrite strict_neq_same. reflexivity.
Qed.

Lemma verifyCode_expired_iff_strictly_after_witness :
  (fst (verifyCode 1000 (Js.Str "123456") pendingUser) =
   mkVerifyResult false CODE_EXPIRED <-> 1000 < 1000)
  /\ (1000 = 1000 ->
      message (fst (verifyCode 1000 (Js.Str "123456") pendingUser)) <> CODE_EXPIRED)
  /\ (1000 = 1000 -> Js.Str "123456" = Js.Str "123456" ->
      fst (verifyCode 1000 (Js.Str "123456") pendingUser) =
      mkVerifyResult true VERIFIED_OK).
Proof.
  apply (verifyCode_expired_iff_strictly_after
           1000 (Js.Str "123456") pendingUser "123456"%string 1000).
  - reflexivity.
  - discriminate.
  - reflexivity.
Defined.

(** C4. Success postcondition of [verifyCode]: for every account with a
    code outstanding and not expired, the call with a candidate equal to
    the stored code returns success, sets [isPhoneVerified] to true, clears
    [verificationCode] and [verificationCodeExpiry] and resets
    [verificationAttempts] to 0; the other fields keep their values. *)
Theorem verifyCode_success_postcondition
  (now : Z) (u : User) (c : string) (e : Z) :
  verificationCode u = Some c -> c <> EmptyString ->
  verificationCodeExpiry u = Some e ->
  now <= e ->
  let (r, u') := verifyCode now (Js.Str c) u in
  r = mkVerifyResult true VERIFIED_OK
  /\ isPhoneVerified u' = true
  /\ verificationCode u' = None
  /\ verificationCodeExpiry u' = None
  /\ verificationAttempts u' = 0
  /\ lastVerificationAttempt u' = lastVerificationAttempt u
  /\ phoneNumber u' = phoneNumber u
  /\ password u' = password u
  /\ isActive u' = isActive u.
Proof.
  intros Hc Hne He Hnow.
  rewrite (verifyCode_outstanding now (Js.Str c) u c e Hc Hne He).
  destruct (Z.ltb_spec e now); [lia|].
  rewrite strict_neq_same. cbn. repeat split.
Qed.

Lemma verifyCode_success_postcondition_witness :
  let (r, u') := verifyCode 1000 (Js.Str "123456") pendingUser in
  r = mkVerifyResult true VERIFIED_OK
  /\ isPhoneVerified u' = true
  /\ verificationCode u' = None
  /\ verificationCodeExpiry u' = None
  /\ verificationAttempts u' = 0
  /\ lastVerificationAttempt u' = lastVerificationAttempt pendingUser
  /\ phoneNumber u' = phoneNumber pendingUser
  /\ password u' = password pendingUser
  /\ isActive u' = isActive pendingUser.
Proof.
  apply (verifyCode_success_postcondition 1000 pendingUser "123456"%string 1000).
  - reflexivity.
  - discriminate.
  - reflexivity.
  - lia.
Defined.

(** C5. Precedence of the failure reasons of [verifyCode], for every
    account and every candidate: with no code or no expiry stored the call
    fails with NO_CODE_ISSUED; with a code stored and the current time
    after its expiry it fails with CODE_EXPIRED, not with CODE_MISMATCH,
    whether or not the candidate equals the stored code; it fails with
    CODE_MISMATCH exactly when the code is not expired and the candidate
    is not strictly equal to the stored string. *)
Theorem verifyCode_failure_precedence (now : Z) (cand : Js.Value) (u : User) :
  (verificationCode u = None \/ verificationCodeExpiry u = None ->
   fst (verifyCode now cand u) = mkVerifyResult false NO_CODE_ISSUED)
  /\
  (forall c e,
      verificationCode u = Some c -> c <> EmptyString ->
      verificationCodeExpiry u = Some e ->
      e < now ->
      fst (verifyCode now cand u) = mkVerifyResult false CODE_EXPIRED
      /\ message (fst (verifyCode now cand u)) <> CODE_MISMATCH)
  /\
  (forall c e,
      verificationCode u = Some c -> c <> EmptyString ->
      verificationCodeExpiry u = Some e ->
      (fst (verifyCode now cand u) = mkVerifyResult false CODE_MISMATCH
       <-> now <= e /\ cand <> Js.Str c)).
Proof.
  split; [|split].
  - intros H. rewrite verifyCode_no_code; [reflexivity | tauto].
  - intros c e Hc Hne He Hlt.
    rewrite (verifyCode_outstanding now cand u c e Hc Hne He).
    destruct (Z.ltb_spec e now); [|lia].
    split; [reflexivity | discriminate].
  - intros c e Hc Hne He.
    rewrite (verifyCode_outstanding now cand u c e Hc Hne He).
    destruct (Z.ltb_spec e now) as [Hlt | Hge].
    + split; [discriminate | lia].
    + pose proof (strict_neq_iff c cand) as Hneq.
      destruct (Js.strict_neq c cand).
      * split; [intros _; split; [exact Hge | apply Hneq; reflexivity] | reflexivity].
      * split; [discriminate|].
        intros [_ Hd]. apply Hneq in Hd. discriminate Hd.
Qed.

Lemma verifyCode_failure_precedence_witness :
  fst (verifyCode 5 (Js.Str "123456") (newUser "+15551230000" None 0)) =
  mkVerifyResult false NO_CODE_ISSUED
  /\
  (fst (verifyCode 1001 (Js.Str "123456") pendingUser) =
   mkVerifyResult false CODE_EXPIRED
   /\ message (fst (verifyCode 1001 (Js.Str "123456") pendingUser)) <> CODE_MISMATCH)
  /\
  (fst (verifyCode 999 (Js.Str "654321") pendingUser) =
   mkVerifyResult false CODE_MISMATCH
   <-> 999 <= 1000 /\ Js.Str "654321" <> Js.Str "123456").
Proof.
  split; [|split].
  - apply (proj1 (verifyCode_failure_precedence
                    5 (Js.Str "123456") (newUser "+15551230000" None 0))).
    left. reflexivity.
  - apply (proj1 (proj2 (verifyCode_failure_precedence
                           1001 (Js.Str "123456") pendingUser))
             "123456"%string 1000).
    + reflexivity.
    + discriminate.
    + reflexivity.
    + lia.
  - apply (proj2 (proj2 (verifyCode_failure_precedence
                           999 (Js.Str "654321") pendingUser))
             "123456"%string 1000).
    + reflexivity.
    + discriminate.
    + reflexivity.
Defined.

(** C9. A failed confirmation has no effect: whenever [verifyCode]
    returns a failure, the account is the one it was called on, so
    [verificationAttempts] is not incremented and an expired code stays
    stored. *)
Theorem verifyCode_failure_no_effect (now : Z) (cand : Js.Value) (u : User) :
  success (fst (verifyCode now cand u)) = false ->
  snd (verifyCode now cand u) = u
  /\ (message (fst (verifyCode now cand u)) = NO_CODE_ISSUED
      \/ message (fst (verifyCode now cand u)) = CODE_EXPIRED
      \/ message (fst (verifyCode now cand u)) = CODE_MISMATCH).
Proof.
  unfold verifyCode.
  destruct (Js.falsy_string (verificationCode u) || Js.falsy_date (verificationCodeExpiry u));
    [intros _; cbn; auto|].
  destruct (verificationCode u) as [stored|]; [|intros _; cbn; auto].
  destruct (verificationCodeExpiry u) as [expiry|]; [|intros _; cbn; auto].
  destruct (expiry <? now); [intros _; cbn; auto|].
  destruct (Js.strict_neq stored cand); [intros _; cbn; auto|].
  cbn. discriminate.
Qed.

Lemma verifyCode_failure_no_effect_witness :
  snd (verifyCode 1001 (Js.Str "123456") pendingUser) = pendingUser
  /\ (message (fst (verifyCode 1001 (Js.Str "123456") pendingUser)) = NO_CODE_ISSUED
      \/ message (fst (verifyCode 1001 (Js.Str "123456") pendingUser)) = CODE_EXPIRED
      \/ message (fst (verifyCode 1001 (Js.Str "123456") pendingUser)) = CODE_MISMATCH).
Proof.
  apply (verifyCode_failure_no_effect 1001 (Js.Str "123456") pendingUser).
  reflexivity.
Defined.

(** ** Generation *)

(** C6, as claimed, fails: the counter is a Number, and at [2^53] adding 1
    gives [2^53] again, so the counter does not grow by 1 in every account
    state. *)
Lemma generate_increment_counterexample :
  ~ (forall (ttl k t1 t2 : Z) (u : User),
        Js.random_draw k ->
        let (code, u') := generateVerificationCode ttl k t1 t2 u in
        (exists n, 100000 <= n <= 999999 /\ code = Js.toString n)
        /\ String.length code = 6%nat
        /\ Js.all_digits code = true
        /\ String.get 0 code <> Some "0"%char
        /\ verificationCode u' = Some code
        /\ verificationCodeExpiry u' = Some (t1 + ttl)
        /\ verificationAttempts u' = verificationAttempts u + 1
        /\ lastVerificationAttempt u' = Some t2).
Proof.
  intros H.
  specialize (H 120000 0 1000 1000 saturatedUser
                ltac:(unfold Js.random_draw; split; [lia | reflexivity])).
  unfold generateVerificationCode in H.
  destruct H as (_ & _ & _ & _ & _ & _ & Hcount & _).
  vm_compute in Hcount. discriminate Hcount.
Qed.

(** C6, amended. Postcondition of [generateVerificationCode], for every
    account state (no admission check is made) and every draw of
    [Math.random()]: the code is the decimal form of a number between
    100000 and 999999, six characters, all of them digits, the first not a
    zero; it is stored as [verificationCode]; [verificationCodeExpiry] is
    the reading of the clock plus the configured TTL;
    [lastVerificationAttempt] is the reading of the clock; the flag
    [isPhoneVerified] and the identity fields keep their values;
    [verificationAttempts] grows by exactly 1 whenever the counter [n] it
    starts from satisfies [-2^53 <= n < 2^53], the range in which adding 1
    to a Number is exact, and at [2^53] it stays where it is. *)
Theorem generateVerificationCode_postcondition
  (ttl k t1 t2 : Z) (u : User) :
  Js.random_draw k ->
  let (code, u') := generateVerificationCode ttl k t1 t2 u in
  (exists n, 100000 <= n <= 999999 /\ code = Js.toString n)
  /\ String.length code = 6%nat
  /\ Js.all_digits code = true
  /\ String.get 0 code <> Some "0"%char
  /\ verificationCode u' = Some code
  /\ verificationCodeExpiry u' = Some (t1 + ttl)
  /\ (- 2 ^ 53 <= verificationAttempts u < 2 ^ 53 ->
      verificationAttempts u' = verificationAttempts u + 1)
  /\ (verificationAttempts u = 2 ^ 53 -> verificationAttempts u' = 2 ^ 53)
  /\ lastVerificationAttempt u' = Some t2
  /\ isPhoneVerified u' = isPhoneVerified u
  /\ phoneNumber u' = phoneNumber u.
Proof.
  intros Hk. unfold generateVerificationCode.
  pose proof (code_number_range k Hk) as Hn.
  set (n := Js.floor_lo_plus_random_times 100000 900000 k) in *.
  split; [exists n; split; [exact Hn | reflexivity]|].
  rewrite (toString_six_digits n Hn).
  split; [reflexivity|].
  split; [apply six_digits_all_digits|].
  split; [apply six_digits_leading; exact Hn|].
  cbn [verificationCode verificationCodeExpiry verificationAttempts
       lastVerificationAttempt isPhoneVerified phoneNumber
       set_verificationCode set_verificationCodeExpiry set_verificationAttempts
       set_lastVerificationAttempt].
  split; [reflexivity|]. split; [reflexivity|].
  split; [intros Hb; apply add_one_exact; exact Hb|].
  split; [intros ->; reflexivity|].
  repeat split.
Qed.

Lemma generateVerificationCode_postcondition_witness :
  let (code, u') :=
    generateVerificationCode 120000 (2 ^ 52) 1000 1000
      (newUser "+15551230000" None 0) in
  (exists n, 100000 <= n <= 999999 /\ code = Js.toString n)
  /\ String.length code = 6%nat
  /\ Js.all_digits code = true
  /\ String.get 0 code <> Some "0"%char
  /\ verificationCode u' = Some code
  /\ verificationCodeExpiry u' = Some (1000 + 120000)
  /\ verificationAttempts u' =
     verificationAttempts (newUser "+15551230000" None 0) + 1
  /\ lastVerificationAttempt u' = Some 1000
  /\ isPhoneVerified u' = isPhoneVerified (newUser "+15551230000" None 0)
  /\ phoneNumber u' = phoneNumber (newUser "+15551230000" None 0).
Proof.
  pose proof (generateVerificationCode_postcondition 120000 (2 ^ 52) 1000 1000
                (newUser "+15551230000" None 0)
                (conj (Z.pow_nonneg 2 52 ltac:(lia)) eq_refl)) as H.
  destruct (generateVerificationCode 120000 (2 ^ 52) 1000 1000
              (newUser "+15551230000" None 0)) as [code u'].
  destruct H as (H1 & H2 & H3 & H4 & H5 & H6 & H7 & _ & H9 & H10 & H11).
  repeat (split; [assumption|]).
  split; [apply H7; cbn; lia|].
  repeat (split; [assumption|]). assumption.
Defined.

(** C7. Generate, then verify, succeeds exactly once: for every account,
    when [generateVerificationCode] returns the code [C] and [verifyCode(C)]
    follows before the TTL has run out (so the TTL is positive, and a call
    at the very instant of generation qualifies), that call returns
    success, and a second [verifyCode(C)], at any later or earlier time,
    fails with NO_CODE_ISSUED, the stored code and expiry having been
    cleared by the first. *)
Theorem generate_then_verify_once
  (ttl k t1 t2 tv tv' : Z) (u : User) :
  t1 <= tv < t1 + ttl ->
  let (C, u1) := generateVerificationCode ttl k t1 t2 u in
  let (r1, u2) := verifyCode tv (Js.Str C) u1 in
  let (r2, u3) := verifyCode tv' (Js.Str C) u2 in
  r1 = mkVerifyResult true VERIFIED_OK
  /\ r2 = mkVerifyResult false NO_CODE_ISSUED
  /\ verificationCode u2 = None
  /\ verificationCodeExpiry u2 = None
  /\ u3 = u2.
Proof.
  intros Htv. unfold generateVerificationCode.
  set (C := Js.toString (Js.floor_lo_plus_random_times 100000 900000 k)).
  pose proof (toString_nonempty (Js.floor_lo_plus_random_times 100000 900000 k)) as Hne.
  fold C in Hne.
  assert (HC : C <> EmptyString) by (intros E; rewrite E in Hne; discriminate Hne).
  match goal with
  | |- let (r1, u2) := verifyCode tv (Js.Str C) ?u1 in _ =>
      rewrite (verifyCode_outstanding tv (Js.Str C) u1 C (t1 + ttl)
                 eq_refl HC eq_refl)
  end.
  destruct (Z.ltb_spec (t1 + ttl) tv); [lia|].
  rewrite strict_neq_same.
  rewrite verifyCode_no_code by (left; reflexivity).
  repeat split.
Qed.

Lemma generate_then_verify_once_witness :
  let (C, u1) :=
    generateVerificationCode 120000 (2 ^ 52) 1000 1000
      (newUser "+15551230000" None 0) in
  let (r1, u2) := verifyCode 1000 (Js.Str C) u1 in
  let (r2, u3) := verifyCode 1000 (Js.Str C) u2 in
  r1 = mkVerifyResult true VERIFIED_OK
  /\ r2 = mkVerifyResult false NO_CODE_ISSUED
  /\ verificationCode u2 = None
  /\ verificationCodeExpiry u2 = None
  /\ u3 = u2.
Proof.
  apply (generate_then_verify_once 120000 (2 ^ 52) 1000 1000 1000 1000
           (newUser "+15551230000" None 0)).
  lia.
Defined.

(** ** Invariants of the state machine *)

Section Invariants.

Lemma run_app (ops1 ops2 : list Op) (u : User) :
  run (ops1 ++ ops2) u = run ops2 (run ops1 u).
Proof. unfold run. apply fold_left_app. Qed.

Lemma Reachable_run (ops : list Op) (u : User) :
  Reachable u -> Reachable (run ops u).
Proof.
  revert u. induction ops as [|op ops IH]; intros u Hu.
  - exact Hu.
  - cbn. apply IH. apply reach_step. exact Hu.
Qed.

(** What each operation does to the fields the invariants speak of. *)
Lemma step_isPhoneVerified (op : Op) (u : User) :
  isPhoneVerified u = true -> isPhoneVerified (step op u) = true.
Proof.
  intros Hv. destruct op as [ttl k t1 t2 | now code | now | now]; cbn.
  - exact Hv.
  - unfold verifyCode.
    destruct (Js.falsy_string (verificationCode u) || Js.falsy_date (verificationCodeExpiry u));
      [exact Hv|].
    destruct (verificationCode u); [|exact Hv].
    destruct (verificationCodeExpiry u) as [e|]; [|exact Hv].
    destruct (e <? now); [exact Hv|].
    destruct (Js.strict_neq s code); [exact Hv | reflexivity].
  - unfold canRequestVerificationCode.
    destruct (maxAttempts <=? verificationAttempts u); [|exact Hv].
    destruct (lastVerificationAttempt u) as [last|]; [|exact Hv].
    destruct (now - last <? cooldownPeriod); exact Hv.
  - unfold cleanupDocument.
    destruct (verificationCodeExpiry u) as [e|]; [|exact Hv].
    destruct (e <? now); exact Hv.
Qed.

Lemma step_stamped (op : Op) (u : User) : stamped u -> stamped (step op u).
Proof.
  unfold stamped. intros Hs.
  destruct op as [ttl k t1 t2 | now code | now | now]; cbn.
  - intros _. exists t2. reflexivity.
  - unfold verifyCode.
    destruct (Js.falsy_string (verificationCode u) || Js.falsy_date (verificationCodeExpiry u));
      [exact Hs|].
    destruct (verificationCode u); [|exact Hs].
    destruct (verificationCodeExpiry u) as [e|]; [|exact Hs].
    destruct (e <? now); [exact Hs|].
    destruct (Js.strict_neq s code); [exact Hs|].
    cbn. lia.
  - unfold canRequestVerificationCode.
    destruct (maxAttempts <=? verificationAttempts u); [|exact Hs].
    destruct (lastVerificationAttempt u) as [last|] eqn:El; [|rewrite El; exact Hs].
    destruct (now - last <? cooldownPeriod); [rewrite El; exact Hs|].
    cbn. lia.
  - unfold cleanupDocument.
    destruct (verificationCodeExpiry u) as [e|]; [|exact Hs].
    destruct (e <? now); exact Hs.
Qed.

Lemma Reachable_stamped (u : User) : Reachable u -> stamped u.
Proof.
  induction 1 as [phone pwd created | u op _ IH].
  - unfold stamped. cbn. lia.
  - apply step_stamped. exact IH.
Qed.

Lemma stamped_canRequest_returns (now : Z) (u : User) :
  stamped u ->
  exists r u', canRequestVerificationCode now u = Js.Normal (r, u').
Proof.
  unfold stamped, canRequestVerificationCode, maxAttempts. intros Hs.
  destruct (Z.leb_spec 5 (verificationAttempts u)) as [Hcap|]; [|eauto].
  destruct (Hs ltac:(lia)) as [t ->].
  destruct (now - t <? cooldownPeriod); eauto.
Qed.

End Invariants.

(** C8. [isPhoneVerified] is sticky: no operation of the state machine
    ([generateVerificationCode], [verifyCode], [canRequestVerificationCode],
    the clean-up of expired codes) changes it from true to false, from any
    state and for any inputs, and so neither does any sequence of them. *)
Theorem isPhoneVerified_sticky (u : User) :
  isPhoneVerified u = true ->
  (forall op, isPhoneVerified (step op u) = true)
  /\ (forall ops, isPhoneVerified (run ops u) = true).
Proof.
  intros Hv. split.
  - intros op. apply step_isPhoneVerified. exact Hv.
  - intros ops. revert u Hv. induction ops as [|op ops IH]; intros u Hv.
    + exact Hv.
    + cbn. apply IH. apply step_isPhoneVerified. exact Hv.
Qed.

Lemma isPhoneVerified_sticky_witness :
  (forall op, isPhoneVerified (step op verifiedUser) = true)
  /\ (forall ops, isPhoneVerified (run ops verifiedUser) = true).
Proof.
  apply (isPhoneVerified_sticky verifiedUser). reflexivity.
Defined.

(** C10. In every state reachable from a freshly created account,
    [verificationAttempts >= 1] implies that [lastVerificationAttempt] is
    present; under that invariant [canRequestVerificationCode] returns
    normally, so on reachable states the read of
    [lastVerificationAttempt.getTime()] never throws. *)
Theorem canRequest_total_on_reachable :
  (forall u, Reachable u ->
             1 <= verificationAttempts u ->
             exists t, lastVerificationAttempt u = Some t)
  /\ (forall u now,
         (1 <= verificationAttempts u ->
          exists t, lastVerificationAttempt u = Some t) ->
         exists r u', canRequestVerificationCode now u = Js.Normal (r, u'))
  /\ (forall u now, Reachable u ->
                    exists r u', canRequestVerificationCode now u = Js.Normal (r, u')).
Proof.
  split; [|split].
  - intros u Hu. apply (Reachable_stamped u Hu).
  - intros u now Hs. apply stamped_canRequest_returns. exact Hs.
  - intros u now Hu. apply stamped_canRequest_returns.
    apply Reachable_stamped. exact Hu.
Qed.

Lemma canRequest_total_on_reachable_witness :
  (exists t, lastVerificationAttempt
               (run fiveRequests (newUser "+15559998888" None 0)) = Some t)
  /\ (exists r u',
         canRequestVerificationCode 6000
           (run fiveRequests (newUser "+15559998888" None 0)) = Js.Normal (r, u')).
Proof.
  split.
  - apply (proj1 canRequest_total_on_reachable
             (run fiveRequests (newUser "+15559998888" None 0))).
    + apply Reachable_run. apply reach_new.
    + vm_compute. discriminate.
  - apply (proj2 (proj2 canRequest_total_on_reachable)
             (run fiveRequests (newUser "+15559998888" None 0)) 6000).
    apply Reachable_run. apply reach_new.
Defined.

(** Outside the reachable states the call can throw: five attempts on
    record and no time stamp. *)
Example canRequest_throws_unstamped :
  canRequestVerificationCode 6000
    (set_verificationAttempts 5 (newUser "+15559998888" None 0)) =
  Js.ThrowTypeError "Cannot read properties of undefined (reading 'getTime')".
Proof. reflexivity. Qed.

(** The sixth request within the window is denied, with 15 minutes to
    wait. *)
Example sixth_request_denied :
  canRequestVerificationCode 6000
    (run fiveRequests (newUser "+15559998888" None 0)) =
  Js.Normal (mkCanRequestResult false (Some (tooManyAttempts 15)),
             run fiveRequests (newUser "+15559998888" None 0)).
Proof. vm_compute. reflexivity. Qed.

(** ** Verified accounts and the code fields *)

Section VerifiedCleared.

Lemma verifyCode_cases (now : Z) (cand : Js.Value) (u : User) :
  (success (fst (verifyCode now cand u)) = false
   /\ snd (verifyCode now cand u) = u)
  \/ (success (fst (verifyCode now cand u)) = true
      /\ isPhoneVerified (snd (verifyCode now cand u)) = true
      /\ cleared (snd (verifyCode now cand u))).
Proof.
  unfold verifyCode, cleared.
  destruct (Js.falsy_string (verificationCode u) || Js.falsy_date (verificationCodeExpiry u));
    [left; split; reflexivity|].
  destruct (verificationCode u) as [stored|]; [|left; split; reflexivity].
  destruct (verificationCodeExpiry u) as [expiry|]; [|left; split; reflexivity].
  destruct (expiry <? now); [left; split; reflexivity|].
  destruct (Js.strict_neq stored cand); [left; split; reflexivity|].
  right. cbn. repeat split.
Qed.

Lemma canRequest_keeps_cleared (now : Z) (u : User) :
  cleared u -> cleared (step (OpCanRequest now) u).
Proof.
  unfold cleared. intros Hc. cbn. unfold canRequestVerificationCode.
  destruct (maxAttempts <=? verificationAttempts u); [|exact Hc].
  destruct (lastVerificationAttempt u) as [last|]; [|exact Hc].
  destruct (now - last <? cooldownPeriod); [exact Hc|].
  cbn. tauto.
Qed.

Lemma cleanup_keeps_cleared (now : Z) (u : User) :
  cleared u -> cleared (step (OpCleanup now) u).
Proof.
  unfold cleared. intros Hc. cbn. unfold cleanupDocument.
  destruct (verificationCodeExpiry u) as [e|] eqn:Ee; [|rewrite Ee; exact Hc].
  destruct (e <? now); [|rewrite Ee; exact Hc].
  cbn. tauto.
Qed.

Lemma run_clearedWhenVerified (ops : list Op) :
  forall u pending,
    clearedWhenVerified u pending ->
    clearedWhenVerified (run ops u) (generatedSinceVerified ops u pending).
Proof.
  induction ops as [|op ops IH]; intros u pending Hinv; [exact Hinv|].
  cbn [generatedSinceVerified]. change (run (op :: ops) u) with (run ops (step op u)).
  apply IH. unfold clearedWhenVerified in *.
  destruct op as [ttl k t1 t2 | now code | now | now].
  - intros _ E. discriminate E.
  - cbn [step]. destruct (verifyCode_cases now code u) as [[Hf Hu] | [Hs [_ Hc]]].
    + rewrite Hf, Hu. exact Hinv.
    + intros _ _. exact Hc.
  - intros Hv Hp. apply canRequest_keeps_cleared. apply Hinv; [|exact Hp].
    destruct (isPhoneVerified u) eqn:Ev; [reflexivity|].
    revert Hv. cbn. unfold canRequestVerificationCode.
    destruct (maxAttempts <=? verificationAttempts u); [|congruence].
    destruct (lastVerificationAttempt u) as [last|]; [|congruence].
    destruct (now - last <? cooldownPeriod); cbn; congruence.
  - intros Hv Hp. apply cleanup_keeps_cleared. apply Hinv; [|exact Hp].
    destruct (isPhoneVerified u) eqn:Ev; [reflexivity|].
    revert Hv. cbn. unfold cleanupDocument.
    destruct (verificationCodeExpiry u) as [e|]; [|congruence].
    destruct (e <? now); cbn; congruence.
Qed.

End VerifiedCleared.

(** C3, as claimed, fails: nothing stops a verified account from
    generating a new code, after which the flag is still true while the
    code fields are set and the counter is 1. *)
Lemma verified_cleared_counterexample :
  ~ (forall u, Reachable u ->
               isPhoneVerified u = true ->
               verificationCode u = None
               /\ verificationCodeExpiry u = None
               /\ verificationAttempts u = 0).
Proof.
  intros H.
  specialize (H (run requestAfterVerified (newUser "+15551230000" None 0))
                (Reachable_run _ _ (reach_new _ _ _)) eq_refl).
  destruct H as [Hcode _]. vm_compute in Hcode. discriminate Hcode.
Qed.

(** C3, amended. In every state reached from a freshly created account by
    a sequence of operations, if [isPhoneVerified] is true and no code was
    generated after the last successful confirmation, then
    [verificationCode] and [verificationCodeExpiry] are absent and
    [verificationAttempts] is 0. *)
Theorem verified_cleared_until_regenerated
  (phone : string) (pwd : option string) (created : Z) (ops : list Op) :
  isPhoneVerified (run ops (newUser phone pwd created)) = true ->
  generatedSinceVerified ops (newUser phone pwd created) false = false ->
  verificationCode (run ops (newUser phone pwd created)) = None
  /\ verificationCodeExpiry (run ops (newUser phone pwd created)) = None
  /\ verificationAttempts (run ops (newUser phone pwd created)) = 0.
Proof.
  intros Hv Hp.
  apply (run_clearedWhenVerified ops (newUser phone pwd created) false);
    [|exact Hv | exact Hp].
  intros E. discriminate E.
Qed.

Lemma verified_cleared_until_regenerated_witness :
  let ops := [OpCanRequest 1000; OpGenerate 120000 0 1000 1000;
              OpVerify 1500 (Js.Str "100000");
              OpCleanup 200000; OpCanRequest 200000;
              OpVerify 200000 (Js.Str "100000")] in
  verificationCode (run ops (newUser "+15551230000" None 0)) = None
  /\ verificationCodeExpiry (run ops (newUser "+15551230000" None 0)) = None
  /\ verificationAttempts (run ops (newUser "+15551230000" None 0)) = 0.
Proof.
  apply (verified_cleared_until_regenerated "+15551230000" None 0).
  - vm_compute. reflexivity.
  - vm_compute. reflexivity.
Defined.

(** ** More on confirmation, generation and clean-up *)

(** X1. [verifyCode] succeeds only in one way: a non-empty code and an
    expiry are stored, the clock has not passed the expiry, and the
    candidate is the string stored. *)
Theorem verifyCode_success_iff (now : Z) (cand : Js.Value) (u : User) :
  success (fst (verifyCode now cand u)) = true <->
  exists c e,
    verificationCode u = Some c /\ c <> EmptyString
    /\ verificationCodeExpiry u = Some e /\ now <= e /\ cand = Js.Str c.
Proof.
  split.
  - unfold verifyCode.
    destruct (verificationCode u) as [c|] eqn:Ec; [|cbn; discriminate].
    destruct c as [|a c']; [cbn; discriminate|].
    destruct (verificationCodeExpiry u) as [e|] eqn:Ee; [|cbn; discriminate].
    cbn [Js.falsy_string Js.falsy_date orb].
    destruct (Z.ltb_spec e now) as [Hlt | Hge]; [cbn; discriminate|].
    destruct (Js.strict_neq (String a c') cand) eqn:Es; [cbn; discriminate|].
    intros _. exists (String a c'), e.
    repeat split; try assumption; try discriminate.
    destruct (strict_neq_iff (String a c') cand) as [_ Hn].
    destruct cand as [| | b | n | s]; try (rewrite Hn in Es by discriminate; discriminate Es).
    destruct (string_dec s (String a c')) as [-> | Hd]; [reflexivity|].
    rewrite Hn in Es; [discriminate Es|]. intros E. injection E as E. contradiction.
  - intros (c & e & Hc & Hne & He & Hnow & ->).
    rewrite (verifyCode_outstanding now (Js.Str c) u c e Hc Hne He).
    destruct (Z.ltb_spec e now); [lia|].
    rewrite strict_neq_same. reflexivity.
Qed.

(** X2. A generation supersedes whatever was stored: after
    [generateVerificationCode] returns [C], a confirmation succeeds exactly
    when it is made no later than the new expiry and submits the string
    [C]; a code issued earlier is accepted only if it is that same
    string. *)
Theorem generate_only_new_code_verifies
  (ttl k t1 t2 tv : Z) (cand : Js.Value) (u : User) :
  let (C, u1) := generateVerificationCode ttl k t1 t2 u in
  success (fst (verifyCode tv cand u1)) = true <->
  tv <= t1 + ttl /\ cand = Js.Str C.
Proof.
  unfold generateVerificationCode.
  set (C := Js.toString (Js.floor_lo_plus_random_times 100000 900000 k)).
  pose proof (toString_nonempty (Js.floor_lo_plus_random_times 100000 900000 k)) as Hne.
  fold C in Hne.
  assert (HC : C <> EmptyString) by (intros E; rewrite E in Hne; discriminate Hne).
  match goal with
  | |- success (fst (verifyCode tv cand ?u1)) = true <-> _ =>
      rewrite (verifyCode_outstanding tv cand u1 C (t1 + ttl) eq_refl HC eq_refl)
  end.
  pose proof (strict_neq_iff C cand) as Hn.
  destruct (Z.ltb_spec (t1 + ttl) tv) as [Hlt | Hge].
  - cbn. split; [discriminate | lia].
  - destruct (Js.strict_neq C cand) eqn:Es; cbn.
    + split; [discriminate|]. intros [_ E]. apply Hn in E; [contradiction | reflexivity].
    + split; [|reflexivity]. intros _. split; [exact Hge|].
      destruct cand as [| | b | n | s]; try (destruct Hn as [_ Hn]; discriminate Hn; discriminate).
      destruct (string_dec s C) as [-> | Hd]; [reflexivity|].
      destruct Hn as [_ Hn]. discriminate Hn. intros E. injection E as E. contradiction.
Qed.

Section CodeAndExpiry.

Lemma step_paired (op : Op) (u : User) : paired u -> paired (step op u).
Proof.
  unfold paired. intros [Hp Hne].
  destruct op as [ttl k t1 t2 | now code | now | now]; cbn.
  - split; [split; discriminate|].
    intros E. injection E as E.
    pose proof (toString_nonempty (Js.floor_lo_plus_random_times 100000 900000 k)) as Hs.
    rewrite E in Hs. discriminate Hs.
  - destruct (verifyCode_cases now code u) as [[_ Hu] | [_ [_ (Hc & He & _)]]].
    + rewrite Hu. split; assumption.
    + rewrite Hc, He. split; [tauto | discriminate].
  - unfold canRequestVerificationCode.
    destruct (maxAttempts <=? verificationAttempts u); [|split; assumption].
    destruct (lastVerificationAttempt u) as [last|]; [|split; assumption].
    destruct (now - last <? cooldownPeriod); split; assumption.
  - unfold cleanupDocument.
    destruct (verificationCodeExpiry u) as [e|] eqn:Ee; [|rewrite Ee; split; assumption].
    destruct (e <? now); [|rewrite Ee; split; assumption].
    cbn. split; [tauto | discriminate].
Qed.

Lemma Reachable_paired (u : User) : Reachable u -> paired u.
Proof.
  induction 1 as [phone pwd created | u op _ IH].
  - unfold paired. cbn. split; [tauto | discriminate].
  - apply step_paired. exact IH.
Qed.

End CodeAndExpiry.

(** X3. In every state reachable from a freshly created account, the code
    and its expiry are both present or both absent, and a stored code is
    never the empty string: "no code" for [verifyCode] is then the same as
    an absent code. *)
Theorem reachable_code_and_expiry_paired (u : User) :
  Reachable u ->
  (verificationCode u = None <-> verificationCodeExpiry u = None)
  /\ verificationCode u <> Some EmptyString
  /\ (forall now cand,
         fst (verifyCode now cand u) = mkVerifyResult false NO_CODE_ISSUED <->
         verificationCode u = None).
Proof.
  intros Hr. destruct (Reachable_paired u Hr) as [Hp Hne].
  split; [exact Hp|]. split; [exact Hne|].
  intros now cand. split.
  - unfold verifyCode.
    destruct (verificationCode u) as [c|] eqn:Ec; [|reflexivity].
    destruct c as [|a c']; [contradiction Hne; reflexivity|].
    destruct (verificationCodeExpiry u) as [e|] eqn:Ee.
    + cbn [Js.falsy_string Js.falsy_date orb].
      destruct (e <? now); [discriminate|].
      destruct (Js.strict_neq (String a c') cand); discriminate.
    + destruct Hp as [_ Hp]. discriminate (Hp eq_refl).
  - intros Hc. rewrite verifyCode_no_code; [reflexivity | left; exact Hc].
Qed.

Lemma reachable_code_and_expiry_paired_witness :
  let u := run fiveRequests (newUser "+15559998888" None 0) in
  (verificationCode u = None <-> verificationCodeExpiry u = None)
  /\ verificationCode u <> Some EmptyString
  /\ (forall now cand,
         fst (verifyCode now cand u) = mkVerifyResult false NO_CODE_ISSUED <->
         verificationCode u = None).
Proof.
  apply (reachable_code_and_expiry_paired
           (run fiveRequests (newUser "+15559998888" None 0))).
  apply Reachable_run. apply reach_new.
Defined.



(** ** The request and confirm controllers *)

Section RequestController.

Variables (ttl : Z) (reads : RequestReads) (newId : Z).
Variables (twilioClient : option Twilio.Client) (twilioFrom : option string).
Variable save : Doc -> bool.
Variable phone : string.

(** When the admission check allows, the counter it leaves is below the
    cap, whatever it was. *)
Lemma canRequest_allowed_counter (now : Z) (u u1 : User) (can : CanRequestResult) :
  canRequestVerificationCode now u = Js.Normal (can, u1) ->
  canRequest can = true ->
  (verificationAttempts u1 = verificationAttempts u /\ verificationAttempts u < 5)
  \/ (verificationAttempts u1 = 0 /\ 5 <= verificationAttempts u
      /\ exists last, lastVerificationAttempt u = Some last
                      /\ cooldownPeriod <= now - last).
Proof.
  unfold canRequestVerificationCode, maxAttempts.
  destruct (Z.leb_spec 5 (verificationAttempts u)) as [Hcap | Hlow].
  - destruct (lastVerificationAttempt u) as [last|]; [|discriminate].
    destruct (Z.ltb_spec (now - last) cooldownPeriod) as [Hin | Hout];
      intros E; injection E as <- <-; cbn.
    + discriminate.
    + intros _. right. split; [reflexivity|]. split; [exact Hcap|].
      exists last. split; [reflexivity | exact Hout].
  - intros E; injection E as <- <-. intros _. left. split; [reflexivity | exact Hlow].
Qed.

(** The shape of a call that gets as far as saving. *)
Lemma request_saved_inv (found : Outcome (option Doc)) (d : Doc) :
  saved (requestPhoneVerification ttl reads newId twilioClient twilioFrom save
           phone found) = Some d ->
  exists f can u1,
    found = Return f
    /\ canRequestVerificationCode (canRequestRead reads) (fields (requestedAccount newId phone (createdRead reads) f)) =
       Js.Normal (can, u1)
    /\ canRequest can = true
    /\ d = mkDoc (_id (requestedAccount newId phone (createdRead reads) f))
             (snd (generateVerificationCode ttl (draw reads) (expiryRead reads)
                     (attemptRead reads) u1))
    /\ save d = true.
Proof.
  unfold requestPhoneVerification.
  destruct found as [f | n m]; [|discriminate].
  change (match f with Some d => d | None => mkDoc newId (newUser phone None (createdRead reads)) end)
    with (requestedAccount newId phone (createdRead reads) f).
  destruct (canRequestVerificationCode (canRequestRead reads) (fields (requestedAccount newId phone (createdRead reads) f)))
    as [[can u1] | msg] eqn:Ecan; [|discriminate].
  destruct (canRequest can) eqn:Eallow; cbn [negb]; [|discriminate].
  destruct (generateVerificationCode ttl (draw reads) (expiryRead reads)
              (attemptRead reads) u1) as [code u2] eqn:Egen.
  destruct (save (mkDoc (_id (requestedAccount newId phone (createdRead reads) f)) u2)) eqn:Esave; cbn [negb]; [|discriminate].
  destruct (Sms.success (sendVerificationSMS twilioClient twilioFrom phone code));
    cbn [negb]; intros E; injection E as <-;
    exists f, can, u1;
    (split; [reflexivity|]; split; [exact Ecan|]; split; [exact Eallow|];
     split; [rewrite Egen; reflexivity | exact Esave]).
Qed.

(** The shape of a call that replies with data. *)
Lemma request_data_inv (found : Outcome (option Doc)) (rd : RequestData.t) :
  Http.data (Http.json (reply (requestPhoneVerification ttl reads newId twilioClient
                                 twilioFrom save phone found))) = Some rd ->
  exists d,
    saved (requestPhoneVerification ttl reads newId twilioClient twilioFrom save
             phone found) = Some d
    /\ RequestData.attemptsRemaining rd = 5 - verificationAttempts (fields d).
Proof.
  unfold requestPhoneVerification.
  destruct found as [f | n m]; [|discriminate].
  destruct (canRequestVerificationCode _ _) as [[can u1] | msg]; [|discriminate].
  destruct (canRequest can); [|discriminate].
  destruct (generateVerificationCode _ _ _ _ u1) as [code u2].
  destruct (save _); [|discriminate].
  destruct (Sms.success _); [|discriminate].
  intros E. injection E as <-. eexists. split; reflexivity.
Qed.

End RequestController.

(** X5. [requestPhoneVerification] keeps the attempt counter within the
    cap: whenever it saves a document, found with a counter that is not
    negative or newly made, the saved counter is between 1 and 5, and the
    [attemptsRemaining] it reports is between 0 and 4. *)
Theorem request_counter_within_cap
  (ttl : Z) (reads : RequestReads) (newId : Z)
  (twilioClient : option Twilio.Client) (twilioFrom : option string)
  (save : Doc -> bool) (phone : string) (found : Outcome (option Doc)) :
  (forall d, found = Return (Some d) -> 0 <= verificationAttempts (fields d)) ->
  let h := requestPhoneVerification ttl reads newId twilioClient twilioFrom save
             phone found in
  (forall d, saved h = Some d -> 1 <= verificationAttempts (fields d) <= 5)
  /\ (forall rd, Http.data (Http.json (reply h)) = Some rd ->
                 0 <= RequestData.attemptsRemaining rd <= 4).
Proof.
  intros Hpos h.
  assert (Hsaved : forall d, saved h = Some d -> 1 <= verificationAttempts (fields d) <= 5).
  { intros d Hd. subst h.
    apply request_saved_inv in Hd.
    destruct Hd as (f & can & u1 & -> & Hcan & Hallow & -> & _).
    assert (H0 : 0 <= verificationAttempts
                       (fields (requestedAccount newId phone (createdRead reads) f))).
    { destruct f as [d|]; [apply Hpos; reflexivity | cbn; lia]. }
    cbn [fields]. rewrite generate_counter.
    destruct (canRequest_allowed_counter _ _ _ _ Hcan Hallow) as [[He Hlt] | [He _]];
      rewrite add_one_exact by (evalZ (2 ^ 53); lia); lia. }
  split; [exact Hsaved|].
  intros rd Hrd. subst h.
  destruct (request_data_inv _ _ _ _ _ _ _ _ _ Hrd) as (d & Hd & ->).
  specialize (Hsaved d Hd). lia.
Qed.

Lemma request_counter_within_cap_witness :
  let h := requestPhoneVerification 120000 (mkRequestReads 0 500 0 500 500 501) 7
             None None (fun _ => true) "+15551230000"
             (Return (Some (mkDoc 3 pendingUser))) in
  exists d rd,
    saved h = Some d
    /\ Http.data (Http.json (reply h)) = Some rd
    /\ verificationAttempts (fields d) = 2
    /\ RequestData.attemptsRemaining rd = 3
    /\ 1 <= verificationAttempts (fields d) <= 5
    /\ 0 <= RequestData.attemptsRemaining rd <= 4.
Proof.
  intros h.
  destruct (request_counter_within_cap 120000 (mkRequestReads 0 500 0 500 500 501) 7
              None None (fun _ => true) "+15551230000"
              (Return (Some (mkDoc 3 pendingUser))))
    as [Hsaved Hdata].
  - intros d E. injection E as <-. cbn. lia.
  - eexists. eexists.
    split; [reflexivity|]. split; [reflexivity|].
    split; [reflexivity|]. split; [reflexivity|].
    split; [apply Hsaved; reflexivity | apply Hdata; reflexivity].
Defined.

(** X6. [requestPhoneVerification] hands a code to [sendVerificationSMS]
    only after the document holding that code has been saved: every call of
    the transport is for the phone number of the request and for the code
    stored in the saved document. *)
Theorem request_sends_only_stored_code
  (ttl : Z) (reads : RequestReads) (newId : Z)
  (twilioClient : option Twilio.Client) (twilioFrom : option string)
  (save : Doc -> bool) (phone : string) (found : Outcome (option Doc)) :
  let h := requestPhoneVerification ttl reads newId twilioClient twilioFrom save
             phone found in
  forall to code,
    smsCall h = Some (to, code) ->
    to = phone
    /\ exists d, saved h = Some d
                 /\ save d = true
                 /\ verificationCode (fields d) = Some code
                 /\ verificationCodeExpiry (fields d) = Some (expiryRead reads + ttl).
Proof.
  intros h to code. subst h. unfold requestPhoneVerification.
  destruct found as [f | n m]; [|discriminate].
  destruct (canRequestVerificationCode _ _) as [[can u1] | msg]; [|discriminate].
  destruct (canRequest can); cbn [negb]; [|discriminate].
  unfold generateVerificationCode.
  destruct (save _) eqn:Esave; cbn [negb]; [|discriminate].
  destruct (Sms.success _); cbn [negb];
    (cbn; intros E; injection E as <- <-; split; [reflexivity|];
     eexists; split; [reflexivity|]; split; [exact Esave|]; split; reflexivity).
Qed.

Section ServedRequest.

Variables (ttl : Z) (reads : RequestReads) (newId : Z).
Variables (twilioClient : option Twilio.Client) (twilioFrom : option string).
Variable save : Doc -> bool.
Variable phone : string.
Variable found : option Doc.

Hypothesis below_cap :
  verificationAttempts (fields (requestedAccount newId phone (createdRead reads) found)) < 5.
Hypothesis save_ok : forall d, save d = true.

(** A request for an account below the cap, with the store accepting the
    write: the code is generated on the account as found, saved, and given
    to the transport, whose result decides the reply. *)
Lemma request_below_cap :
  let account := requestedAccount newId phone (createdRead reads) found in
  let gen := generateVerificationCode ttl (draw reads) (expiryRead reads)
               (attemptRead reads) (fields account) in
  let smsResult := sendVerificationSMS twilioClient twilioFrom phone (fst gen) in
  let h := requestPhoneVerification ttl reads newId twilioClient twilioFrom save
             phone (Return found) in
  saved h = Some (mkDoc (_id account) (snd gen))
  /\ smsCall h = Some (phone, fst gen)
  /\ reply h =
     if Sms.success smsResult
     then Http.mkReply 200
            (formatApiResponse (replyRead reads) true
               "Verification code sent successfully"
               (Some (RequestData.mk (phoneNumber (snd gen)) (Sms.message smsResult)
                        ttl (5 - verificationAttempts (snd gen))
                        (if Sms.mockMode smsResult
                         then Sms.verificationCode smsResult else None)
                        (Sms.mockMode smsResult)))
               None)
     else Http.mkReply 500
            (formatApiResponse (replyRead reads) false (Sms.message smsResult)
               None (Sms.error smsResult)).
Proof.
  intros account gen smsResult h. subst h. unfold requestPhoneVerification.
  change (match found with
          | Some d => d
          | None => mkDoc newId (newUser phone None (createdRead reads))
          end) with account.
  rewrite (canRequest_below_cap (canRequestRead reads) (fields account) below_cap).
  cbn [canRequest negb].
  change (generateVerificationCode ttl (draw reads) (expiryRead reads)
            (attemptRead reads) (fields account)) with gen.
  destruct gen as [code u2] eqn:Egen. cbn [fst snd] in *.
  rewrite save_ok. cbn [negb].
  fold smsResult.
  destruct (Sms.success smsResult); cbn [negb]; repeat split.
Qed.

End ServedRequest.

(** X7. A failed delivery does not take the code back: when Twilio
    rejects the message for an account below the cap,
    [requestPhoneVerification] answers 500, yet the saved account holds the
    new code, its counter has been incremented (by exactly 1, the counter
    not being below [-2^53], where the addition of Numbers stops being
    exact), and a confirmation with that code made before the expiry
    succeeds. *)
Theorem request_failed_delivery_keeps_code
  (ttl : Z) (reads : RequestReads) (newId : Z)
  (client : Twilio.Client) (twilioFrom : option string)
  (save : Doc -> bool) (phone : string) (found : option Doc) :
  - 2 ^ 53 <=
  verificationAttempts (fields (requestedAccount newId phone (createdRead reads) found)) < 5 ->
  (forall d, save d = true) ->
  (forall m, exists code msg, client m = Twilio.Rejected code msg) ->
  let account := requestedAccount newId phone (createdRead reads) found in
  let h := requestPhoneVerification ttl reads newId (Some client) twilioFrom save
             phone (Return found) in
  Http.status (reply h) = 500
  /\ Http.success (Http.json (reply h)) = false
  /\ exists d C,
      saved h = Some d
      /\ verificationCode (fields d) = Some C
      /\ verificationAttempts (fields d) = verificationAttempts (fields account) + 1
      /\ forall tv, tv <= expiryRead reads + ttl ->
                    success (fst (verifyCode tv (Js.Str C) (fields d))) = true.
Proof.
  intros [Hlow Hcap] Hsave Hrej account h.
  destruct (request_below_cap ttl reads newId (Some client) twilioFrom save phone
              found Hcap Hsave) as (Hsaved & _ & Hreply).
  fold account in Hsaved, Hreply. fold h in Hsaved, Hreply.
  assert (Hfail : Sms.success
                    (sendVerificationSMS (Some client) twilioFrom phone
                       (fst (generateVerificationCode ttl (draw reads) (expiryRead reads)
                               (attemptRead reads) (fields account)))) = false).
  { unfold sendVerificationSMS.
    match goal with
    | |- context [client ?m] => destruct (Hrej m) as (code & msg & ->)
    end.
    match goal with
    | |- Sms.success (let '(_, _) := ?t in _) = false => destruct t; reflexivity
    end. }
  rewrite Hfail in Hreply. rewrite Hreply, Hsaved.
  split; [reflexivity|]. split; [reflexivity|].
  unfold generateVerificationCode. cbn [fst snd].
  eexists. eexists. split; [reflexivity|].
  split; [reflexivity|].
  split; [apply add_one_exact; fold account in Hlow, Hcap; evalZ (2 ^ 53); lia|].
  intros tv Htv. cbn [fields].
  set (C := Js.toString (Js.floor_lo_plus_random_times 100000 900000 (draw reads))).
  pose proof (toString_nonempty (Js.floor_lo_plus_random_times 100000 900000 (draw reads))) as Hne.
  fold C in Hne.
  assert (HC : C <> EmptyString) by (intros E; rewrite E in Hne; discriminate Hne).
  match goal with
  | |- success (fst (verifyCode tv (Js.Str C) ?u)) = true =>
      rewrite (verifyCode_outstanding tv (Js.Str C) u C (expiryRead reads + ttl)
                 eq_refl HC eq_refl)
  end.
  destruct (Z.ltb_spec (expiryRead reads + ttl) tv); [lia|].
  rewrite strict_neq_same. reflexivity.
Qed.

Lemma request_failed_delivery_keeps_code_witness :
  let client := fun _ : Twilio.Message => Twilio.Rejected (Some 21211) "unreachable" in
  let reads := mkRequestReads 0 1000 0 1000 1000 1001 in
  let account := requestedAccount 7 "+15551230000" (createdRead reads) None in
  let h := requestPhoneVerification 120000 reads 7 (Some client) None (fun _ => true)
             "+15551230000" (Return None) in
  Http.status (reply h) = 500
  /\ Http.success (Http.json (reply h)) = false
  /\ exists d C,
      saved h = Some d
      /\ verificationCode (fields d) = Some C
      /\ verificationAttempts (fields d) = verificationAttempts (fields account) + 1
      /\ forall tv, tv <= expiryRead reads + 120000 ->
                    success (fst (verifyCode tv (Js.Str C) (fields d))) = true.
Proof.
  apply (request_failed_delivery_keeps_code 120000
           (mkRequestReads 0 1000 0 1000 1000 1001) 7
           (fun _ => Twilio.Rejected (Some 21211) "unreachable") None (fun _ => true)
           "+15551230000" None).
  - cbn. lia.
  - reflexivity.
  - intros m. exists (Some 21211), "unreachable"%string. reflexivity.
Defined.

Lemma request_sends_only_stored_code_witness :
  let reads := mkRequestReads 0 1000 0 1000 1000 1001 in
  let h := requestPhoneVerification 120000 reads 7 None None (fun _ => true)
             "+15551230000" (Return None) in
  "+15551230000"%string = "+15551230000"%string
  /\ exists d, saved h = Some d
               /\ (fun _ : Doc => true) d = true
               /\ verificationCode (fields d) = Some "100000"%string
               /\ verificationCodeExpiry (fields d) = Some (expiryRead reads + 120000).
Proof.
  apply (request_sends_only_stored_code 120000
           (mkRequestReads 0 1000 0 1000 1000 1001) 7 None None (fun _ => true)
           "+15551230000" (Return None) "+15551230000"%string "100000"%string).
  vm_compute. reflexivity.
Defined.

Section ConfirmController.

Variable sign : Jwt.Claims -> string.
Variables (now verifiedAt stamp : Z).
Variable save : Doc -> bool.
Variable cand : Js.Value.
Variable stored : Doc.

(** Leaving [lastVerificationAttempt] out of the query changes neither the
    result of [verifyCode] nor what is written back. *)
Lemma confirm_selected_result :
  fst (verifyCode now cand (fields (selectForConfirm stored))) =
  fst (verifyCode now cand (fields stored)).
Proof.
  destruct stored as [id [ph pw v c e a l act cr ll]].
  unfold selectForConfirm, verifyCode. cbn.
  destruct c as [[|ch c']|]; try reflexivity.
  destruct e as [e|]; try reflexivity. cbn.
  destruct (e <? now); [reflexivity|].
  destruct (Js.strict_neq (String ch c') cand); reflexivity.
Qed.

Lemma confirm_written_document :
  saveVerification stored
    (mkDoc (_id (selectForConfirm stored))
       (snd (verifyCode now cand (fields (selectForConfirm stored))))) =
  mkDoc (_id stored) (snd (verifyCode now cand (fields stored))).
Proof.
  destruct stored as [id [ph pw v c e a l act cr ll]].
  unfold selectForConfirm, saveVerification, verifyCode. cbn.
  destruct c as [[|ch c']|]; try reflexivity.
  destruct e as [e|]; try reflexivity. cbn.
  destruct (e <? now); [reflexivity|].
  destruct (Js.strict_neq (String ch c') cand); reflexivity.
Qed.

Lemma confirm_selected_fields :
  phoneNumber (snd (verifyCode now cand (fields (selectForConfirm stored)))) =
  phoneNumber (snd (verifyCode now cand (fields stored)))
  /\ isPhoneVerified (snd (verifyCode now cand (fields (selectForConfirm stored)))) =
     isPhoneVerified (snd (verifyCode now cand (fields stored))).
Proof.
  destruct stored as [id [ph pw v c e a l act cr ll]].
  unfold selectForConfirm, verifyCode. cbn.
  destruct c as [[|ch c']|]; try (split; reflexivity).
  destruct e as [e|]; try (split; reflexivity). cbn.
  destruct (e <? now); [split; reflexivity|].
  destruct (Js.strict_neq (String ch c') cand); split; reflexivity.
Qed.

(** The call on a document that is found and that the store accepts. *)
Lemma confirm_found :
  save (mkDoc (_id stored) (snd (verifyCode now cand (fields stored)))) = true ->
  confirmPhoneVerification sign now verifiedAt stamp save cand (Return (Some stored)) =
  let r := fst (verifyCode now cand (fields stored)) in
  let u1 := snd (verifyCode now cand (fields stored)) in
  if success r
  then
    mkHandled
      (Http.mkReply 200
         (formatApiResponse stamp true "Phone number verified successfully"
            (Some (ConfirmData.mk (_id stored) (phoneNumber u1) (isPhoneVerified u1)
                     verifiedAt
                     (sign (Jwt.mkClaims (_id stored) (phoneNumber u1)
                              (isPhoneVerified u1)))
                     "dashboard"))
            None))
      (Some (mkDoc (_id stored) u1)) None
  else
    mkHandled
      (Http.mkReply 400
         (formatApiResponse stamp false (message r) None
            (Some "INVALID_VERIFICATION_CODE"%string)))
      (Some (mkDoc (_id stored) u1)) None.
Proof.
  intros Hsave. unfold confirmPhoneVerification.
  pose proof confirm_selected_result as Hr.
  pose proof confirm_written_document as Hw.
  pose proof confirm_selected_fields as Hu.
  destruct (verifyCode now cand (fields (selectForConfirm stored))) as [r u1] eqn:Ev.
  cbn [fst snd] in Hr, Hw, Hu. rewrite Hw, Hsave. cbn [negb]. subst r.
  destruct (success (fst (verifyCode now cand (fields stored)))) eqn:Es; cbn [negb].
  - unfold generateToken. cbn [_id fields] in *.
    destruct Hu as [-> ->]. reflexivity.
  - reflexivity.
Qed.

End ConfirmController.

Lemma verifyCode_keeps_lastVerificationAttempt (now : Z) (cand : Js.Value) (u : User) :
  lastVerificationAttempt (snd (verifyCode now cand u)) = lastVerificationAttempt u.
Proof.
  unfold verifyCode.
  destruct (Js.falsy_string (verificationCode u) || Js.falsy_date (verificationCodeExpiry u));
    [reflexivity|].
  destruct (verificationCode u) as [c|]; [|reflexivity].
  destruct (verificationCodeExpiry u) as [e|]; [|reflexivity].
  destruct (e <? now); [reflexivity|].
  destruct (Js.strict_neq c cand); reflexivity.
Qed.

(** X8. [confirmPhoneVerification] writes to the stored document exactly
    what [verifyCode] does to it: although the query leaves
    [lastVerificationAttempt] out, the time stamp of the last request is
    still there afterwards, and the [_id] is the same. *)
Theorem confirm_writes_verifyCode_result
  (sign : Jwt.Claims -> string) (now verifiedAt stamp : Z) (save : Doc -> bool)
  (cand : Js.Value) (stored d : Doc) :
  saved (confirmPhoneVerification sign now verifiedAt stamp save cand
           (Return (Some stored))) = Some d ->
  d = mkDoc (_id stored) (snd (verifyCode now cand (fields stored)))
  /\ lastVerificationAttempt (fields d) = lastVerificationAttempt (fields stored)
  /\ save d = true.
Proof.
  unfold confirmPhoneVerification.
  pose proof (confirm_written_document now cand stored) as Hw.
  destruct (verifyCode now cand (fields (selectForConfirm stored))) as [r u1].
  cbn [snd] in Hw. rewrite Hw.
  destruct (save (mkDoc (_id stored) (snd (verifyCode now cand (fields stored)))))
    eqn:Esave; cbn [negb]; [|discriminate].
  destruct (success r); cbn [negb]; intros E; injection E as <-;
    (split; [reflexivity|]; split;
     [apply verifyCode_keeps_lastVerificationAttempt | exact Esave]).
Qed.

Lemma confirm_writes_verifyCode_result_witness :
  let d := mkDoc 3 (snd (verifyCode 1000 (Js.Str "123456") pendingUser)) in
  d = mkDoc (_id (mkDoc 3 pendingUser))
        (snd (verifyCode 1000 (Js.Str "123456") (fields (mkDoc 3 pendingUser))))
  /\ lastVerificationAttempt (fields d) =
     lastVerificationAttempt (fields (mkDoc 3 pendingUser))
  /\ (fun _ : Doc => true) d = true.
Proof.
  apply (confirm_writes_verifyCode_result (fun _ => "token"%string) 1000 1001 1002
           (fun _ => true) (Js.Str "123456") (mkDoc 3 pendingUser)).
  reflexivity.
Defined.

(** X9. Replies of [confirmPhoneVerification] for a number that is on
    record, the store accepting the write: the status is 200 exactly when
    [verifyCode] succeeds on the stored document; otherwise the status is
    400 and the error code is INVALID_VERIFICATION_CODE for each of the
    three failures, which differ in the message only, and the document
    written back is the stored one. *)
Theorem confirm_reply
  (sign : Jwt.Claims -> string) (now verifiedAt stamp : Z) (save : Doc -> bool)
  (cand : Js.Value) (stored : Doc) :
  (forall d, save d = true) ->
  let h := confirmPhoneVerification sign now verifiedAt stamp save cand
             (Return (Some stored)) in
  let r := fst (verifyCode now cand (fields stored)) in
  (Http.status (reply h) = 200 <-> success r = true)
  /\ (success r = false ->
      Http.status (reply h) = 400
      /\ Http.error (Http.json (reply h)) = Some "INVALID_VERIFICATION_CODE"%string
      /\ Http.message (Http.json (reply h)) = message r
      /\ saved h = Some stored).
Proof.
  intros Hsave h r. subst h.
  rewrite (confirm_found sign now verifiedAt stamp save cand stored (Hsave _)).
  cbv zeta. fold r.
  destruct (verifyCode_cases now cand (fields stored)) as [[Hf Hu] | [Hs _]].
  - fold r in Hf. rewrite Hf. split; [split; discriminate|].
    intros _. rewrite Hu. destruct stored as [id u]. repeat split.
  - fold r in Hs. rewrite Hs. split; [split; reflexivity | discriminate].
Qed.

Lemma confirm_reply_witness :
  let h := confirmPhoneVerification (fun _ => "token"%string) 1001 1002 1003
             (fun _ => true) (Js.Str "123456") (Return (Some (mkDoc 3 pendingUser))) in
  let r := fst (verifyCode 1001 (Js.Str "123456") (fields (mkDoc 3 pendingUser))) in
  (Http.status (reply h) = 200 <-> success r = true)
  /\ (success r = false ->
      Http.status (reply h) = 400
      /\ Http.error (Http.json (reply h)) = Some "INVALID_VERIFICATION_CODE"%string
      /\ Http.message (Http.json (reply h)) = message r
      /\ saved h = Some (mkDoc 3 pendingUser)).
Proof.
  apply (confirm_reply (fun _ => "token"%string) 1001 1002 1003 (fun _ => true)
           (Js.Str "123456") (mkDoc 3 pendingUser)).
  reflexivity.
Defined.

(** X10. Request, then confirm, in mock mode (no Twilio client): for an
    account below the cap, the reply to the request is 200 and carries the
    code [C] that was stored; [confirmPhoneVerification] with [C] before
    the expiry replies 200, saves the account as verified with the code
    cleared, and issues a token whose [isPhoneVerified] claim is true; a
    second confirmation with [C] replies 400 with "No verification code
    found". *)
Theorem mock_request_then_confirm
  (ttl : Z) (reads : RequestReads) (newId : Z) (twilioFrom : option string)
  (save : Doc -> bool) (phone : string) (found : option Doc)
  (sign : Jwt.Claims -> string) (now verifiedAt stamp now' : Z) :
  verificationAttempts (fields (requestedAccount newId phone (createdRead reads) found)) < 5 ->
  (forall d, save d = true) ->
  now <= expiryRead reads + ttl ->
  let h := requestPhoneVerification ttl reads newId None twilioFrom save phone
             (Return found) in
  exists rd C d,
    Http.status (reply h) = 200
    /\ Http.data (Http.json (reply h)) = Some rd
    /\ RequestData.mockMode rd = true
    /\ RequestData.verificationCode rd = Some C
    /\ saved h = Some d
    /\ verificationCode (fields d) = Some C
    /\ let h2 := confirmPhoneVerification sign now verifiedAt stamp save (Js.Str C)
                   (Return (Some d)) in
       exists d2 cd,
         Http.status (reply h2) = 200
         /\ saved h2 = Some d2
         /\ isPhoneVerified (fields d2) = true
         /\ verificationCode (fields d2) = None
         /\ Http.data (Http.json (reply h2)) = Some cd
         /\ ConfirmData.token cd =
            sign (Jwt.mkClaims (_id d) (phoneNumber (fields d)) true)
         /\ let h3 := confirmPhoneVerification sign now' verifiedAt stamp save
                        (Js.Str C) (Return (Some d2)) in
            Http.status (reply h3) = 400
            /\ Http.message (Http.json (reply h3)) = NO_CODE_ISSUED.
Proof.
  intros Hcap Hsave Hnow h.
  destruct (request_below_cap ttl reads newId None twilioFrom save phone
              found Hcap Hsave) as (Hsaved & _ & Hreply).
  fold h in Hsaved, Hreply.
  set (account := requestedAccount newId phone (createdRead reads) found) in *.
  unfold sendVerificationSMS in Hreply. cbn [Sms.success Sms.mockMode Sms.message
                                             Sms.verificationCode] in Hreply.
  unfold generateVerificationCode in Hsaved, Hreply. cbn [fst snd] in Hsaved, Hreply.
  set (C := Js.toString (Js.floor_lo_plus_random_times 100000 900000 (draw reads))) in *.
  pose proof (toString_nonempty (Js.floor_lo_plus_random_times 100000 900000 (draw reads))) as Hne.
  fold C in Hne.
  assert (HC : C <> EmptyString) by (intros E; rewrite E in Hne; discriminate Hne).
  rewrite Hreply, Hsaved.
  eexists. exists C. eexists.
  split; [reflexivity|]. split; [reflexivity|]. split; [reflexivity|].
  split; [reflexivity|]. split; [reflexivity|]. split; [reflexivity|].
  cbv zeta.
  match goal with
  | |- context [confirmPhoneVerification sign now verifiedAt stamp save (Js.Str C)
                  (Return (Some ?d))] =>
      set (d1 := d);
      assert (Hv : verifyCode now (Js.Str C) (fields d1) =
                   (mkVerifyResult true VERIFIED_OK,
                    set_verificationAttempts 0
                      (set_verificationCodeExpiry None
                         (set_verificationCode None
                            (set_isPhoneVerified true (fields d1))))))
  end.
  { rewrite (verifyCode_outstanding now (Js.Str C) (fields d1) C
               (expiryRead reads + ttl) eq_refl HC eq_refl).
    destruct (Z.ltb_spec (expiryRead reads + ttl) now); [lia|].
    rewrite strict_neq_same. reflexivity. }
  rewrite (confirm_found sign now verifiedAt stamp save (Js.Str C) d1 (Hsave _)).
  rewrite Hv. cbn [fst snd success]. cbv zeta.
  eexists. eexists.
  split; [reflexivity|]. split; [reflexivity|]. split; [reflexivity|].
  split; [reflexivity|]. split; [reflexivity|]. split; [reflexivity|].
  rewrite (confirm_found sign now' verifiedAt stamp save (Js.Str C) _ (Hsave _)).
  cbn [fields].
  rewrite verifyCode_no_code by (left; reflexivity).
  cbn. split; reflexivity.
Qed.

Lemma mock_request_then_confirm_witness :
  let reads := mkRequestReads 0 1000 0 1000 1000 1001 in
  let h := requestPhoneVerification 120000 reads 7 None None (fun _ => true)
             "+15551230000" (Return None) in
  exists rd C d,
    Http.status (reply h) = 200
    /\ Http.data (Http.json (reply h)) = Some rd
    /\ RequestData.mockMode rd = true
    /\ RequestData.verificationCode rd = Some C
    /\ saved h = Some d
    /\ verificationCode (fields d) = Some C
    /\ let h2 := confirmPhoneVerification (fun _ => "token"%string) 2000 2001 2002
                   (fun _ => true) (Js.Str C) (Return (Some d)) in
       exists d2 cd,
         Http.status (reply h2) = 200
         /\ saved h2 = Some d2
         /\ isPhoneVerified (fields d2) = true
         /\ verificationCode (fields d2) = None
         /\ Http.data (Http.json (reply h2)) = Some cd
         /\ ConfirmData.token cd =
            (fun _ : Jwt.Claims => "token"%string)
              (Jwt.mkClaims (_id d) (phoneNumber (fields d)) true)
         /\ let h3 := confirmPhoneVerification (fun _ => "token"%string) 3000 2001 2002
                        (fun _ => true) (Js.Str C) (Return (Some d2)) in
            Http.status (reply h3) = 400
            /\ Http.message (Http.json (reply h3)) = NO_CODE_ISSUED.
Proof.
  apply (mock_request_then_confirm 120000 (mkRequestReads 0 1000 0 1000 1000 1001) 7
           None (fun _ => true) "+15551230000" None (fun _ => "token"%string)
           2000 2001 2002 3000).
  - cbn. lia.
  - reflexivity.
  - cbn. lia.
Defined.

(** ** Login *)

(** X11. [loginUser], the store accepting the write, replies 200 exactly
    when the phone number is on record, the account is active, and either
    the account has no password, in which case whatever password is
    submitted is ignored, or a non-empty password is submitted that
    [bcrypt.compare] accepts against the stored hash. Whether the phone is
    verified plays no part, and the only field written is [lastLoginAt]. *)
Theorem login_succeeds_iff
  (sign : Jwt.Claims -> string) (compare : string -> string -> bool)
  (now stamp : Z) (save : Doc -> bool)
  (pwd : option string) (found : Outcome (option Doc)) :
  (forall d, save d = true) ->
  let h := loginUser sign compare now stamp save pwd found in
  (Http.status (reply h) = 200 <->
   exists d,
     found = Return (Some d)
     /\ isActive (fields d) = true
     /\ (Js.falsy_string (password (fields d)) = true
         \/ exists hash candidate,
             password (fields d) = Some hash
             /\ pwd = Some candidate
             /\ candidate <> EmptyString
             /\ compare candidate hash = true))
  /\ (forall d', saved h = Some d' ->
        exists d, found = Return (Some d)
                  /\ d' = mkDoc (_id d) (set_lastLoginAt (Some now) (fields d))).
Proof.
  intros Hsave h. subst h. unfold loginUser.
  destruct found as [[d|] | n m]; cbn.
  2: { split; [split; [discriminate | intros (d & E & _); discriminate E] | discriminate]. }
  2: { split; [split; [discriminate | intros (d & E & _); discriminate E] | discriminate]. }
  destruct (isActive (fields d)) eqn:Eact; cbn.
  2: { split; [|discriminate].
       split; [discriminate|].
       intros (d0 & E & Hact & _). injection E as <-. congruence. }
  rewrite Hsave. cbn.
  destruct (password (fields d)) as [[|a hash]|] eqn:Epw; cbn.
  - split; [|intros d' E; injection E as <-; exists d; split; reflexivity].
    split; [|reflexivity]. intros _. exists d. rewrite Epw. cbn. auto.
  - destruct pwd as [[|b candidate]|] eqn:Ep; cbn.
    + split; [|discriminate]. split; [discriminate|].
      intros (d0 & E & _ & [Hf | (hs & c & _ & Hc & Hne & _)]).
      * injection E as <-. rewrite Epw in Hf. discriminate Hf.
      * injection Hc as <-. contradiction Hne; reflexivity.
    + destruct (compare (String b candidate) (String a hash)) eqn:Ecmp; cbn.
      * split; [|intros d' E; injection E as <-; exists d; split; reflexivity].
        split; [|reflexivity]. intros _. exists d.
        split; [reflexivity|]. split; [exact Eact|]. right.
        exists (String a hash), (String b candidate).
        repeat split; try assumption. discriminate.
      * split; [|discriminate]. split; [discriminate|].
        intros (d0 & E & _ & [Hf | (hs & c & Hh & Hc & _ & Hcmp)]).
        -- injection E as <-. rewrite Epw in Hf. discriminate Hf.
        -- injection E as <-. rewrite Epw in Hh. injection Hh as <-.
           injection Hc as <-. congruence.
    + split; [|discriminate]. split; [discriminate|].
      intros (d0 & E & _ & [Hf | (hs & c & _ & Hc & _)]).
      * injection E as <-. rewrite Epw in Hf. discriminate Hf.
      * discriminate Hc.
  - split; [|intros d' E; injection E as <-; exists d; split; reflexivity].
    split; [|reflexivity]. intros _. exists d. rewrite Epw. cbn. auto.
Qed.

Lemma login_succeeds_iff_witness :
  let h := loginUser (fun _ => "token"%string) String.eqb 5000 5001 (fun _ => true)
             (Some "anything"%string) (Return (Some (mkDoc 3 pendingUser))) in
  (Http.status (reply h) = 200 <->
   exists d,
     Return (Some (mkDoc 3 pendingUser)) = Return (Some d)
     /\ isActive (fields d) = true
     /\ (Js.falsy_string (password (fields d)) = true
         \/ exists hash candidate,
             password (fields d) = Some hash
             /\ Some "anything"%string = Some candidate
             /\ candidate <> EmptyString
             /\ String.eqb candidate hash = true))
  /\ (forall d', saved h = Some d' ->
        exists d, Return (Some (mkDoc 3 pendingUser)) = Return (Some d)
                  /\ d' = mkDoc (_id d) (set_lastLoginAt (Some 5000) (fields d))).
Proof.
  apply (login_succeeds_iff (fun _ => "token"%string) String.eqb 5000 5001
           (fun _ => true) (Some "anything"%string) (Return (Some (mkDoc 3 pendingUser)))).
  reflexivity.
Defined.

(** ** Phone number normalisation *)

Section PhoneNumbers.

Lemma filter_string_idem (keep : ascii -> bool) (s : string) :
  filter_string keep (filter_string keep s) = filter_string keep s.
Proof.
  induction s as [|c s IH]; [reflexivity|]. cbn.
  destruct (keep c) eqn:E; [|exact IH]. cbn. rewrite E, IH. reflexivity.
Qed.

Lemma filter_string_weaken (keep keep' : ascii -> bool) (s : string) :
  (forall c, keep c = true -> keep' c = true) ->
  filter_string keep' (filter_string keep s) = filter_string keep s.
Proof.
  intros H. induction s as [|c s IH]; [reflexivity|]. cbn.
  destruct (keep c) eqn:E; [|exact IH]. cbn. rewrite (H c E), IH. reflexivity.
Qed.

Lemma filter_string_compose (keep keep' : ascii -> bool) (s : string) :
  (forall c, keep' c = true -> keep c = true) ->
  filter_string keep' (filter_string keep s) = filter_string keep' s.
Proof.
  intros H. induction s as [|c s IH]; [reflexivity|]. cbn.
  destruct (keep c) eqn:E; cbn.
  - rewrite IH. reflexivity.
  - destruct (keep' c) eqn:E'; [|exact IH].
    rewrite (H c E') in E. discriminate E.
Qed.

Lemma removeNonDigitPlus_idem (s : string) :
  removeNonDigitPlus (removeNonDigitPlus s) = removeNonDigitPlus s.
Proof. apply filter_string_idem. Qed.

Lemma removeNonDigits_of_cleaned (s : string) :
  removeNonDigits (removeNonDigitPlus s) = removeNonDigits s.
Proof.
  apply filter_string_compose. intros c H. rewrite H. reflexivity.
Qed.

Lemma removeNonDigitPlus_of_digits (s : string) :
  removeNonDigitPlus (removeNonDigits s) = removeNonDigits s.
Proof.
  apply (filter_string_weaken Js.is_digit). intros c H. rewrite H. reflexivity.
Qed.

Lemma digit_not_plus (c : ascii) : Js.is_digit c = true -> is_plus c = false.
Proof.
  unfold is_plus. destruct (Ascii.eqb_spec c "+"%char) as [-> | ?]; [discriminate | reflexivity].
Qed.

Lemma removeNonDigits_no_plus (s : string) :
  startsWithPlus (removeNonDigits s) = false.
Proof.
  induction s as [|c s IH]; [reflexivity|]. unfold removeNonDigits in *. cbn.
  destruct (Js.is_digit c) eqn:E; [|exact IH]. cbn. apply digit_not_plus. exact E.
Qed.

(** What [sanitizePhoneNumber] returns for a non-empty argument, by the
    cleaned string. *)
Lemma sanitize_cases (p : string) :
  p <> EmptyString ->
  let cleaned := removeNonDigitPlus p in
  (startsWithPlus cleaned = true /\ sanitizePhoneNumber p = cleaned)
  \/ (startsWithPlus cleaned = false /\ String.length cleaned = 10%nat
      /\ sanitizePhoneNumber p = String "+" (String "1" cleaned))
  \/ (startsWithPlus cleaned = false /\ String.length cleaned <> 10%nat
      /\ sanitizePhoneNumber p = String "+" cleaned).
Proof.
  intros Hne cleaned. unfold sanitizePhoneNumber. fold cleaned.
  destruct p as [|a p']; [contradiction|]. cbn [Js.falsy_string].
  destruct (startsWithPlus cleaned); cbn [negb]; [left; split; reflexivity|].
  destruct (Nat.eqb_spec (String.length cleaned) 10) as [E | E].
  - right; left. repeat split. exact E.
  - right; right. repeat split. exact E.
Qed.

Lemma sanitize_shape (p : string) :
  p <> EmptyString ->
  startsWithPlus (sanitizePhoneNumber p) = true
  /\ removeNonDigitPlus (sanitizePhoneNumber p) = sanitizePhoneNumber p.
Proof.
  intros Hne.
  destruct (sanitize_cases p Hne) as [[Hs ->] | [(Hs & _ & ->) | (Hs & _ & ->)]].
  - split; [exact Hs | apply removeNonDigitPlus_idem].
  - split; [reflexivity|]. unfold removeNonDigitPlus. cbn.
    fold (removeNonDigitPlus (removeNonDigitPlus p)).
    rewrite removeNonDigitPlus_idem. reflexivity.
  - split; [reflexivity|]. unfold removeNonDigitPlus. cbn.
    fold (removeNonDigitPlus (removeNonDigitPlus p)).
    rewrite removeNonDigitPlus_idem. reflexivity.
Qed.

Lemma startsWithPlus_nonempty (s : string) :
  startsWithPlus s = true -> s <> EmptyString.
Proof. destruct s; [discriminate | discriminate]. Qed.

End PhoneNumbers.

(** X12. For a non-empty argument, [sanitizePhoneNumber] returns a string
    that starts with [+] and consists of digits and [+] signs only; its
    digits are the digits of the argument, in order, with a [1] put in
    front exactly when the cleaned argument has ten characters and no
    leading [+]. *)
Theorem sanitizePhoneNumber_shape (p : string) :
  p <> EmptyString ->
  startsWithPlus (sanitizePhoneNumber p) = true
  /\ removeNonDigitPlus (sanitizePhoneNumber p) = sanitizePhoneNumber p
  /\ removeNonDigits (sanitizePhoneNumber p) =
     if negb (startsWithPlus (removeNonDigitPlus p))
        && (String.length (removeNonDigitPlus p) =? 10)%nat
     then String "1" (removeNonDigits p)
     else removeNonDigits p.
Proof.
  intros Hne. destruct (sanitize_shape p Hne) as [H1 H2].
  split; [exact H1|]. split; [exact H2|].
  destruct (sanitize_cases p Hne) as [[Hs ->] | [(Hs & Hl & ->) | (Hs & Hl & ->)]];
    rewrite Hs; cbn [negb andb].
  - apply removeNonDigits_of_cleaned.
  - rewrite Hl. cbn [Nat.eqb]. unfold removeNonDigits. cbn.
    fold (removeNonDigits (removeNonDigitPlus p)).
    rewrite removeNonDigits_of_cleaned. reflexivity.
  - destruct (Nat.eqb_spec (String.length (removeNonDigitPlus p)) 10); [contradiction|].
    unfold removeNonDigits. cbn.
    fold (removeNonDigits (removeNonDigitPlus p)).
    apply removeNonDigits_of_cleaned.
Qed.

Lemma sanitizePhoneNumber_shape_witness :
  startsWithPlus (sanitizePhoneNumber "(555) 123-0000") = true
  /\ removeNonDigitPlus (sanitizePhoneNumber "(555) 123-0000") =
     sanitizePhoneNumber "(555) 123-0000"
  /\ removeNonDigits (sanitizePhoneNumber "(555) 123-0000") =
     if negb (startsWithPlus (removeNonDigitPlus "(555) 123-0000"))
        && (String.length (removeNonDigitPlus "(555) 123-0000") =? 10)%nat
     then String "1" (removeNonDigits "(555) 123-0000")
     else removeNonDigits "(555) 123-0000".
Proof.
  apply (sanitizePhoneNumber_shape "(555) 123-0000"). discriminate.
Defined.

(** X13. [sanitizePhoneNumber] is idempotent: sanitising a sanitised
    number changes nothing. *)
Theorem sanitizePhoneNumber_idempotent (p : string) :
  sanitizePhoneNumber (sanitizePhoneNumber p) = sanitizePhoneNumber p.
Proof.
  destruct p as [|a p'] eqn:Ep; [reflexivity|]. rewrite <- Ep.
  assert (Hne : p <> EmptyString) by (rewrite Ep; discriminate).
  destruct (sanitize_shape p Hne) as [Hs Hc].
  pose proof (startsWithPlus_nonempty _ Hs) as Hne'.
  destruct (sanitize_cases (sanitizePhoneNumber p) Hne') as [[_ ->] | [(Hs' & _) | (Hs' & _)]].
  - exact Hc.
  - rewrite Hc, Hs in Hs'. discriminate Hs'.
  - rewrite Hc, Hs in Hs'. discriminate Hs'.
Qed.

(** X14. [formatPhoneNumber] always returns a string that starts with
    [+], and is idempotent; a number that already starts with [+] is
    returned as it is, separators included. *)
Theorem formatPhoneNumber_plus_idempotent (p : string) :
  startsWithPlus (formatPhoneNumber p) = true
  /\ formatPhoneNumber (formatPhoneNumber p) = formatPhoneNumber p
  /\ (startsWithPlus p = true -> formatPhoneNumber p = p).
Proof.
  assert (Hfix : forall q, startsWithPlus q = true -> formatPhoneNumber q = q).
  { intros q Hq. unfold formatPhoneNumber. rewrite Hq. reflexivity. }
  assert (Hs : startsWithPlus (formatPhoneNumber p) = true).
  { unfold formatPhoneNumber.
    destruct (startsWithPlus p) eqn:E; cbn [negb]; [exact E|].
    destruct (String.length (removeNonDigits p) =? 10)%nat; reflexivity. }
  split; [exact Hs|]. split; [apply Hfix; exact Hs | apply Hfix].
Qed.

(** X15. The number the message goes to is the number on record:
    [formatPhoneNumber], applied by [sendVerificationSMS], leaves a number
    sanitised by [sanitizePhoneNumber] as it is, and on a non-empty number
    written without any [+] the two functions return the same string. *)
Theorem formatPhoneNumber_after_sanitize (p : string) :
  p <> EmptyString ->
  formatPhoneNumber (sanitizePhoneNumber p) = sanitizePhoneNumber p
  /\ (filter_string is_plus p = EmptyString ->
      formatPhoneNumber p = sanitizePhoneNumber p).
Proof.
  intros Hne. split.
  - unfold formatPhoneNumber at 1.
    destruct (sanitize_shape p Hne) as [-> _]. reflexivity.
  - intros Hnoplus.
    assert (Hsame : removeNonDigitPlus p = removeNonDigits p).
    { clear Hne. unfold removeNonDigitPlus, removeNonDigits.
      induction p as [|c s IH]; [reflexivity|]. cbn in *.
      destruct (is_plus c) eqn:Ec; [discriminate Hnoplus|].
      rewrite orb_false_r. rewrite (IH Hnoplus). reflexivity. }
    assert (Hstart : startsWithPlus p = false).
    { destruct p as [|c s]; [reflexivity|]. cbn in *.
      destruct (is_plus c); [discriminate Hnoplus | reflexivity]. }
    unfold formatPhoneNumber, sanitizePhoneNumber.
    destruct p as [|a p']; [contradiction|]. cbn [Js.falsy_string].
    rewrite Hstart, Hsame, removeNonDigits_no_plus. reflexivity.
Qed.

Lemma formatPhoneNumber_after_sanitize_witness :
  formatPhoneNumber (sanitizePhoneNumber "(555) 123-0000") =
  sanitizePhoneNumber "(555) 123-0000"
  /\ (filter_string is_plus "(555) 123-0000" = EmptyString ->
      formatPhoneNumber "(555) 123-0000" = sanitizePhoneNumber "(555) 123-0000").
Proof.
  apply (formatPhoneNumber_after_sanitize "(555) 123-0000"). discriminate.
Defined.

(** X16. On the routes the phone number is sanitised before it is
    validated; the custom rule of [validatePhoneNumber] then accepts a
    non-empty number exactly when the sanitised string has between 7 and 15
    digits, and otherwise throws. *)
Theorem phoneNumberRule_after_sanitize (p : string) :
  p <> EmptyString ->
  let digits := String.length (removeNonDigits (sanitizePhoneNumber p)) in
  (phoneNumberRule (sanitizePhoneNumber p) = Return true <-> (7 <= digits <= 15)%nat)
  /\ (phoneNumberRule (sanitizePhoneNumber p) <> Return true ->
      phoneNumberRule (sanitizePhoneNumber p) =
      Throw "Error" "Phone number must be between 7 and 15 digits").
Proof.
  intros Hne digits. destruct (sanitize_shape p Hne) as [Hs Hc].
  unfold phoneNumberRule. rewrite Hc, Hs. fold digits. cbn [andb].
  destruct (Nat.ltb_spec digits 7) as [H7 | H7]; cbn [orb].
  - split; [split; [discriminate | lia] | reflexivity].
  - destruct (Nat.ltb_spec 15 digits) as [H15 | H15].
    + split; [split; [discriminate | lia] | reflexivity].
    + destruct (Nat.leb_spec 7 digits); [|lia].
      split; [split; [lia | reflexivity]|]. intros Hno. contradiction Hno. reflexivity.
Qed.

Lemma phoneNumberRule_after_sanitize_witness :
  let digits := String.length (removeNonDigits (sanitizePhoneNumber "555-1234")) in
  (phoneNumberRule (sanitizePhoneNumber "555-1234") = Return true <->
   (7 <= digits <= 15)%nat)
  /\ (phoneNumberRule (sanitizePhoneNumber "555-1234") <> Return true ->
      phoneNumberRule (sanitizePhoneNumber "555-1234") =
      Throw "Error" "Phone number must be between 7 and 15 digits").
Proof.
  apply (phoneNumberRule_after_sanitize "555-1234"). discriminate.
Defined.

(** ** Authentication middleware *)

Section Headers.

Lemma split_no_separator (sep : ascii) (s : string) :
  containsChar sep s = false -> split sep s = [s].
Proof.
  induction s as [|c s IH]; [reflexivity|]. cbn.
  destruct (Ascii.eqb c sep); [discriminate|]. cbn.
  intros H. rewrite (IH H). reflexivity.
Qed.

Lemma split_at_first_separator (sep : ascii) (w s : string) :
  containsChar sep w = false ->
  split sep (String.append w (String sep s)) = w :: split sep s.
Proof.
  induction w as [|c w IH]; cbn.
  - intros _. rewrite Ascii.eqb_refl. reflexivity.
  - destruct (Ascii.eqb c sep); [discriminate|]. cbn.
    intros H. rewrite (IH H). reflexivity.
Qed.

Lemma append_separator_nonempty (w s : string) (sep : ascii) :
  Js.falsy_string (Some (String.append w (String sep s))) = false.
Proof. destruct w; reflexivity. Qed.

Lemma tokenOfHeader_header (scheme token : string) :
  containsChar " " scheme = false ->
  containsChar " " token = false ->
  tokenOfHeader (Some (String.append scheme (String " " token))) = Some token.
Proof.
  intros Hs Ht. unfold tokenOfHeader.
  rewrite append_separator_nonempty.
  rewrite (split_at_first_separator " " scheme token Hs).
  rewrite (split_no_separator " " token Ht). reflexivity.
Qed.

End Headers.

(** X17. The token is the second space-separated piece of the
    [Authorization] header, whatever the first piece is: a header made of a
    scheme word, one space and a token without spaces yields that token,
    and a non-empty header without any space yields none. *)
Theorem tokenOfHeader_second_piece (scheme token : string) :
  containsChar " " scheme = false ->
  containsChar " " token = false ->
  tokenOfHeader (Some (String.append scheme (String " " token))) = Some token
  /\ (scheme <> EmptyString -> tokenOfHeader (Some scheme) = None).
Proof.
  intros Hs Ht. unfold tokenOfHeader. split.
  - rewrite append_separator_nonempty.
    rewrite (split_at_first_separator " " scheme token Hs).
    rewrite (split_no_separator " " token Ht). reflexivity.
  - intros Hne. destruct scheme as [|c w]; [contradiction|].
    cbn [Js.falsy_string].
    rewrite (split_no_separator " " (String c w) Hs). reflexivity.
Qed.

Lemma tokenOfHeader_second_piece_witness :
  tokenOfHeader (Some (String.append "Bearer" (String " " "abc.def.ghi"))) =
  Some "abc.def.ghi"%string
  /\ ("Bearer"%string <> EmptyString -> tokenOfHeader (Some "Bearer"%string) = None).
Proof.
  apply (tokenOfHeader_second_piece "Bearer" "abc.def.ghi"); reflexivity.
Defined.

Section Gate.

Variable verify : string -> Outcome Jwt.Decoded.
Variable findById : Z -> Outcome (option Doc).
Variable authHeader : option string.

(** [authenticateToken] calls [next()] in one case only. *)
Lemma authenticateToken_next_inv (user : option Doc) (tokenData : option Jwt.Decoded) :
  authenticateToken verify findById authHeader = Next user tokenData ->
  exists t decoded d,
    tokenOfHeader authHeader = Some t /\ t <> EmptyString
    /\ verify t = Return decoded
    /\ findById (Jwt.userId (Jwt.claims decoded)) = Return (Some d)
    /\ isActive (fields d) = true
    /\ user = Some d /\ tokenData = Some decoded.
Proof.
  unfold authenticateToken.
  destruct (tokenOfHeader authHeader) as [t|]; [|discriminate].
  destruct t as [|c t']; [discriminate|]. cbn [Js.falsy_string].
  destruct (verify (String c t')) as [decoded | n m] eqn:Ev.
  2: { destruct (String.eqb n "TokenExpiredError"); [discriminate|].
       destruct (String.eqb n "JsonWebTokenError"); discriminate. }
  destruct (findById (Jwt.userId (Jwt.claims decoded))) as [[d|] | n m] eqn:Ef.
  - destruct (isActive (fields d)) eqn:Ea; cbn [negb]; [|discriminate].
    intros E. injection E as <- <-.
    exists (String c t'), decoded, d. repeat split; try assumption. discriminate.
  - discriminate.
  - destruct (String.eqb n "TokenExpiredError"); [discriminate|].
    destruct (String.eqb n "JsonWebTokenError"); discriminate.
Qed.

Lemma authenticateToken_next_intro (t : string) (decoded : Jwt.Decoded) (d : Doc) :
  tokenOfHeader authHeader = Some t -> t <> EmptyString ->
  verify t = Return decoded ->
  findById (Jwt.userId (Jwt.claims decoded)) = Return (Some d) ->
  isActive (fields d) = true ->
  authenticateToken verify findById authHeader = Next (Some d) (Some decoded).
Proof.
  intros Ht Hne Hv Hf Ha. unfold authenticateToken. rewrite Ht.
  destruct t as [|c t']; [contradiction|]. cbn [Js.falsy_string].
  rewrite Hv, Hf, Ha. reflexivity.
Qed.

Lemma authenticateToken_respond_401 (st : Z) (msg err : string) :
  authenticateToken verify findById authHeader = Respond st msg err -> st = 401.
Proof.
  unfold authenticateToken.
  destruct (tokenOfHeader authHeader) as [t|]; cbn [Js.falsy_string].
  2: { intros E. injection E as <- _ _. reflexivity. }
  destruct t as [|c t']; cbn [Js.falsy_string].
  { intros E. injection E as <- _ _. reflexivity. }
  destruct (verify (String c t')) as [decoded | n m].
  2: { destruct (String.eqb n "TokenExpiredError");
         [intros E; injection E as <- _ _; reflexivity|].
       destruct (String.eqb n "JsonWebTokenError");
         intros E; injection E as <- _ _; reflexivity. }
  destruct (findById (Jwt.userId (Jwt.claims decoded))) as [[d|] | n m].
  - destruct (isActive (fields d)); cbn [negb]; [discriminate|].
    intros E; injection E as <- _ _; reflexivity.
  - intros E; injection E as <- _ _; reflexivity.
  - destruct (String.eqb n "TokenExpiredError");
      [intros E; injection E as <- _ _; reflexivity|].
    destruct (String.eqb n "JsonWebTokenError");
      intros E; injection E as <- _ _; reflexivity.
Qed.

End Gate.

(** X18. [authenticateToken] lets a request through only when the header
    carries a non-empty token that [jwt.verify] accepts and whose [userId]
    is the [_id] of an active account, which becomes [req.user]; every
    other outcome, errors thrown by [jwt.verify] or by the store included,
    is a reply with status 401. *)
Theorem authenticateToken_sound
  (verify : string -> Outcome Jwt.Decoded) (findById : Z -> Outcome (option Doc))
  (authHeader : option string) :
  match authenticateToken verify findById authHeader with
  | Next user tokenData =>
      exists t decoded d,
        tokenOfHeader authHeader = Some t /\ t <> EmptyString
        /\ verify t = Return decoded
        /\ findById (Jwt.userId (Jwt.claims decoded)) = Return (Some d)
        /\ isActive (fields d) = true
        /\ user = Some d /\ tokenData = Some decoded
  | Respond st _ _ => st = 401
  end.
Proof.
  destruct (authenticateToken verify findById authHeader) as [user td | st msg err] eqn:E.
  - apply (authenticateToken_next_inv verify findById authHeader user td E).
  - apply (authenticateToken_respond_401 verify findById authHeader st msg err E).
Qed.

(** X19. The dashboard is opened by the stored account, not by the token's
    claim: the chain [authenticateToken], [requirePhoneVerification] calls
    [next()] exactly when the token is accepted and names an account that
    is active and whose stored [isPhoneVerified] is true; the
    [isPhoneVerified] claim inside the token is not looked at. Every other
    outcome is a reply with status 401 or 403. *)
Theorem dashboardGate_reads_stored_flag
  (verify : string -> Outcome Jwt.Decoded) (findById : Z -> Outcome (option Doc))
  (authHeader : option string) :
  ((exists user tokenData,
       dashboardGate verify findById authHeader = Next user tokenData) <->
   (exists t decoded d,
       tokenOfHeader authHeader = Some t /\ t <> EmptyString
       /\ verify t = Return decoded
       /\ findById (Jwt.userId (Jwt.claims decoded)) = Return (Some d)
       /\ isActive (fields d) = true
       /\ isPhoneVerified (fields d) = true))
  /\ (forall st msg err,
         dashboardGate verify findById authHeader = Respond st msg err ->
         st = 401 \/ st = 403).
Proof.
  unfold dashboardGate. split; [split|].
  - intros (user & td & H).
    destruct (authenticateToken verify findById authHeader) as [u0 td0 | st msg err] eqn:E;
      [|discriminate].
    destruct (authenticateToken_next_inv _ _ _ _ _ E)
      as (t & decoded & d & Ht & Hne & Hv & Hf & Ha & -> & ->).
    exists t, decoded, d. repeat split; try assumption.
    revert H. cbn. destruct (isPhoneVerified (fields d)); [reflexivity | discriminate].
  - intros (t & decoded & d & Ht & Hne & Hv & Hf & Ha & Hp).
    rewrite (authenticateToken_next_intro _ _ _ t decoded d Ht Hne Hv Hf Ha).
    cbn. rewrite Hp. cbn. eauto.
  - intros st msg err.
    destruct (authenticateToken verify findById authHeader) as [u0 td0 | st0 msg0 err0] eqn:E.
    + unfold requirePhoneVerification. destruct u0 as [u|].
      * destruct (isPhoneVerified (fields u)); cbn [negb]; [discriminate|].
        intros H. injection H as <- _ _. right. reflexivity.
      * intros H. injection H as <- _ _. right. reflexivity.
    + intros H. injection H as <- _ _. left.
      apply (authenticateToken_respond_401 _ _ _ _ _ _ E).
Qed.

(** X20. A token issued before the phone was verified opens the dashboard
    afterwards: once [confirmPhoneVerification] has replied 200 for an
    active account and the store returns the document it saved, the chain
    in front of the dashboard calls [next()] for any accepted token that
    names this account, its [isPhoneVerified] claim being false or true. *)
Theorem unverified_token_opens_dashboard_after_confirm
  (sign : Jwt.Claims -> string) (now verifiedAt stamp : Z) (save : Doc -> bool)
  (cand : Js.Value) (stored saved' : Doc)
  (verify : string -> Outcome Jwt.Decoded) (findById : Z -> Outcome (option Doc))
  (token : string) (decoded : Jwt.Decoded) :
  let h := confirmPhoneVerification sign now verifiedAt stamp save cand
             (Return (Some stored)) in
  Http.status (reply h) = 200 ->
  saved h = Some saved' ->
  isActive (fields stored) = true ->
  token <> EmptyString -> containsChar " " token = false ->
  verify token = Return decoded ->
  Jwt.userId (Jwt.claims decoded) = _id stored ->
  findById (_id stored) = Return (Some saved') ->
  dashboardGate verify findById (Some (String.append "Bearer" (String " " token))) =
  Next (Some saved') (Some decoded).
Proof.
  intros h Hst Hsaved Hact Hne Hsp Hv Hid Hfind. subst h.
  assert (Hd : isPhoneVerified (fields saved') = true /\ isActive (fields saved') = true).
  { revert Hst Hsaved. unfold confirmPhoneVerification.
    pose proof (confirm_written_document now cand stored) as Hw.
    pose proof (confirm_selected_result now cand stored) as Hr.
    destruct (verifyCode now cand (fields (selectForConfirm stored))) as [r u1].
    cbn [fst snd] in Hw, Hr. rewrite Hw.
    destruct (save _); cbn [negb]; [|discriminate].
    destruct (success r) eqn:Es; cbn [negb]; [|discriminate].
    intros _ E. injection E as <-. cbn [fields].
    rewrite Hr in Es.
    destruct (verifyCode_cases now cand (fields stored)) as [[Hf _] | [_ [Hp _]]];
      [congruence|].
    split; [exact Hp|].
    revert Hact. clear. unfold verifyCode.
    destruct (Js.falsy_string _ || Js.falsy_date _); [auto|].
    destruct (verificationCode (fields stored)); [|auto].
    destruct (verificationCodeExpiry (fields stored)) as [e|]; [|auto].
    destruct (e <? now); [auto|].
    destruct (Js.strict_neq s cand); auto. }
  destruct Hd as [Hp Ha].
  unfold dashboardGate.
  rewrite (authenticateToken_next_intro verify findById _ token decoded saved').
  - cbn. rewrite Hp. reflexivity.
  - apply tokenOfHeader_header.
    + reflexivity.
    + exact Hsp.
  - exact Hne.
  - exact Hv.
  - rewrite Hid. exact Hfind.
  - exact Ha.
Qed.

Lemma unverified_token_opens_dashboard_after_confirm_witness :
  let decoded := Jwt.mkDecoded (Jwt.mkClaims 3 "+15551230000" false) (Some 700000) in
  let saved' := mkDoc 3 (snd (verifyCode 1000 (Js.Str "123456") pendingUser)) in
  dashboardGate (fun _ => Return decoded) (fun _ => Return (Some saved'))
    (Some (String.append "Bearer" (String " " "abc.def.ghi"))) =
  Next (Some saved') (Some decoded).
Proof.
  apply (unverified_token_opens_dashboard_after_confirm
           (fun _ => "token"%string) 1000 1001 1002 (fun _ => true)
           (Js.Str "123456") (mkDoc 3 pendingUser)
           (mkDoc 3 (snd (verifyCode 1000 (Js.Str "123456") pendingUser)))
           (fun _ => Return (Jwt.mkDecoded (Jwt.mkClaims 3 "+15551230000" false)
                               (Some 700000)))
           (fun _ => Return (Some (mkDoc 3 (snd (verifyCode 1000 (Js.Str "123456")
                                                   pendingUser)))))
           "abc.def.ghi"
           (Jwt.mkDecoded (Jwt.mkClaims 3 "+15551230000" false) (Some 700000)));
    try reflexivity.
  discriminate.
Defined.

(** X21. [refreshTokenIfNeeded] sets the [X-New-Token] header exactly when
    the request carries a user and token data with an expiry [exp] and the
    clock, in milliseconds, has reached [(exp - 3599) * 1000], that is when
    fewer than 3600 whole seconds are left; this includes a token whose
    expiry has already passed. The new token is the one [generateToken]
    makes from the current account. *)
Theorem refreshTokenIfNeeded_threshold
  (sign : Jwt.Claims -> string) (nowMs : Z)
  (user : option Doc) (tokenData : option Jwt.Decoded) (newToken : string) :
  refreshTokenIfNeeded sign nowMs user tokenData = Some newToken <->
  exists u td e,
    user = Some u /\ tokenData = Some td /\ Jwt.exp td = Some e
    /\ (e - 3599) * 1000 <= nowMs
    /\ newToken = generateToken sign u.
Proof.
  unfold refreshTokenIfNeeded. split.
  - destruct tokenData as [td|]; [|discriminate].
    destruct user as [u|]; [|discriminate].
    destruct (Jwt.exp td) as [e|] eqn:Ee; [|discriminate].
    destruct (Z.ltb_spec (e - nowMs / 1000) 3600) as [Hlt | Hge]; [|discriminate].
    intros E. injection E as <-.
    exists u, td, e. repeat split; try assumption.
    pose proof (Z.div_mod nowMs 1000 ltac:(lia)).
    pose proof (Z.mod_pos_bound nowMs 1000 ltac:(lia)). lia.
  - intros (u & td & e & -> & -> & He & Hnow & ->). rewrite He.
    destruct (Z.ltb_spec (e - nowMs / 1000) 3600) as [Hlt | Hge]; [reflexivity|].
    pose proof (Z.div_mod nowMs 1000 ltac:(lia)).
    pose proof (Z.mod_pos_bound nowMs 1000 ltac:(lia)). lia.
Qed.

(** ** The in-memory request limiter *)

Section Limiter.

Import RateLimit.

Lemma get_set_same (key : string) (value : Entry) (requests : Requests) :
  get key (set key value requests) = Some value.
Proof.
  induction requests as [|[k v] rest IH]; cbn.
  - rewrite String.eqb_refl. reflexivity.
  - destruct (String.eqb key k) eqn:E; cbn; rewrite E; [reflexivity | exact IH].
Qed.

Lemma get_set_other (key key' : string) (value : Entry) (requests : Requests) :
  key' <> key ->
  get key' (set key value requests) = get key' requests.
Proof.
  intros Hne. induction requests as [|[k v] rest IH]; cbn.
  - destruct (String.eqb_spec key' key); [contradiction | reflexivity].
  - destruct (String.eqb_spec key k) as [-> | Hk]; cbn.
    + destruct (String.eqb_spec key' k); [contradiction | reflexivity].
    + destruct (String.eqb key' k); [reflexivity | exact IH].
Qed.

Lemma passed_cons (v : Verdict) (vs : list Verdict) :
  passed (v :: vs) = (match v with Pass => 1 | TooMany _ => 0 end) + passed vs.
Proof. unfold passed. destruct v; cbn [filter List.length]; lia. Qed.

Lemma serve_cons (maxRequests windowMs : Z) (key : string) (now : Z)
  (later : list Z) (requests : Requests) :
  serve maxRequests windowMs key (now :: later) requests =
  (fst (middleware maxRequests windowMs key now requests)
     :: fst (serve maxRequests windowMs key later
               (snd (middleware maxRequests windowMs key now requests))),
   snd (serve maxRequests windowMs key later
          (snd (middleware maxRequests windowMs key now requests)))).
Proof.
  cbn [serve].
  destruct (middleware maxRequests windowMs key now requests) as [v r1].
  cbn [fst snd].
  destruct (serve maxRequests windowMs key later r1) as [vs r2]. reflexivity.
Qed.

(** Within a window that has admitted [c] requests, [maxRequests - c] more
    are admitted and the others refused. *)
Lemma serve_within_window (maxRequests windowMs : Z) (key : string) (later : list Z) :
  forall (requests : Requests) (c reset : Z),
    get key requests = Some (mkEntry c reset) ->
    Forall (fun t => t <= reset) later ->
    passed (fst (serve maxRequests windowMs key later requests)) =
    Z.min (Z.of_nat (List.length later)) (Z.max (maxRequests - c) 0).
Proof.
  induction later as [|t later IH]; intros requests c reset Hget Hall.
  - cbn. unfold passed. cbn. lia.
  - rewrite serve_cons. cbn [fst]. rewrite passed_cons.
    inversion Hall as [|t' l' Ht Hlater]; subst.
    unfold middleware. rewrite Hget. cbn [resetTime count].
    destruct (Z.ltb_spec reset t); [lia|].
    destruct (Z.leb_spec maxRequests c) as [Hfull | Hroom]; cbn [fst snd].
    + rewrite (IH requests c reset Hget Hlater).
      cbn [List.length]. lia.
    + rewrite (IH _ (c + 1) reset (get_set_same key _ requests) Hlater).
      cbn [List.length]. lia.
Qed.

End Limiter.

(** X22. Callers do not interfere: a request of one caller leaves the
    entry of every other caller as it was, and no entry is ever removed. *)
Theorem rateLimit_callers_independent
  (maxRequests windowMs : Z) (key key' : string) (now : Z)
  (requests : RateLimit.Requests) :
  (key' <> key ->
   RateLimit.get key' (snd (RateLimit.middleware maxRequests windowMs key now requests)) =
   RateLimit.get key' requests)
  /\ RateLimit.get key (snd (RateLimit.middleware maxRequests windowMs key now requests))
     <> None.
Proof.
  unfold RateLimit.middleware. split.
  - intros Hne.
    destruct (RateLimit.get key requests) as [d|]; cbn [snd].
    + destruct (RateLimit.resetTime d <? now); cbn [snd];
        [apply get_set_other; exact Hne|].
      destruct (maxRequests <=? RateLimit.count d); cbn [snd];
        [reflexivity | apply get_set_other; exact Hne].
    + apply get_set_other; exact Hne.
  - destruct (RateLimit.get key requests) as [d|] eqn:Eg; cbn [snd].
    + destruct (RateLimit.resetTime d <? now); cbn [snd];
        [rewrite get_set_same; discriminate|].
      destruct (maxRequests <=? RateLimit.count d); cbn [snd];
        [rewrite Eg; discriminate | rewrite get_set_same; discriminate].
    + rewrite get_set_same. discriminate.
Qed.

(** X23. The cap of a window: for a caller not yet in the map whose
    requests all arrive no later than [windowMs] after the first one, the
    number admitted is the number of requests or [maxRequests], whichever
    is smaller, except that the first request is admitted even when
    [maxRequests] is below 1. *)
Theorem rateLimit_window_cap
  (maxRequests windowMs : Z) (key : string) (first : Z) (later : list Z)
  (requests : RateLimit.Requests) :
  RateLimit.get key requests = None ->
  Forall (fun t => t <= first + windowMs) later ->
  RateLimit.passed
    (fst (RateLimit.serve maxRequests windowMs key (first :: later) requests)) =
  Z.min (Z.of_nat (List.length (first :: later))) (Z.max maxRequests 1).
Proof.
  intros Hnew Hall. rewrite serve_cons. cbn [fst]. rewrite passed_cons.
  unfold RateLimit.middleware. rewrite Hnew. cbn [fst snd].
  rewrite (serve_within_window maxRequests windowMs key later _ 1 (first + windowMs)
             (get_set_same key _ requests) Hall).
  cbn [List.length]. lia.
Qed.

Lemma rateLimit_window_cap_witness :
  RateLimit.passed
    (fst (RateLimit.serve 5 900000 "10.0.0.1"
            (0 :: [1000; 2000; 3000; 4000; 5000; 900000]) [])) =
  Z.min (Z.of_nat (List.length (0 :: [1000; 2000; 3000; 4000; 5000; 900000])))
        (Z.max 5 1).
Proof.
  apply (rateLimit_window_cap 5 900000 "10.0.0.1" 0
           [1000; 2000; 3000; 4000; 5000; 900000] []).
  - reflexivity.
  - repeat constructor; lia.
Defined.

(** X24. A refusal changes nothing and tells the time left: when the
    limiter answers 429 the map is the one it was given, the caller has an
    entry at the cap whose window has not ended, and [retryAfter] is the
    time to the end of the window in minutes, rounded up; it is 0 exactly
    when the request arrives at the very instant the window ends, which
    still belongs to the old window. *)
Theorem rateLimit_refusal
  (maxRequests windowMs : Z) (key : string) (now : Z)
  (requests requests' : RateLimit.Requests) (retryAfter : Z) :
  RateLimit.middleware maxRequests windowMs key now requests =
  (RateLimit.TooMany retryAfter, requests') ->
  requests' = requests
  /\ exists d,
      RateLimit.get key requests = Some d
      /\ maxRequests <= RateLimit.count d
      /\ now <= RateLimit.resetTime d
      /\ 60000 * (retryAfter - 1) < RateLimit.resetTime d - now <= 60000 * retryAfter
      /\ 0 <= retryAfter
      /\ (retryAfter = 0 <-> now = RateLimit.resetTime d).
Proof.
  unfold RateLimit.middleware.
  destruct (RateLimit.get key requests) as [d|]; [|discriminate].
  destruct (Z.ltb_spec (RateLimit.resetTime d) now) as [Hlt | Hge]; [discriminate|].
  destruct (Z.leb_spec maxRequests (RateLimit.count d)) as [Hfull | Hroom]; [|discriminate].
  intros E. injection E as <- <-.
  split; [reflexivity|]. exists d.
  pose proof (ceil_div_spec (RateLimit.resetTime d - now) 60000 ltac:(lia)) as Hc.
  repeat split; try assumption; try lia.
Qed.

Lemma rateLimit_refusal_witness :
  let requests := [("10.0.0.1"%string, RateLimit.mkEntry 5 900000)] in
  requests = requests
  /\ exists d,
      RateLimit.get "10.0.0.1" requests = Some d
      /\ 5 <= RateLimit.count d
      /\ 900000 <= RateLimit.resetTime d
      /\ 60000 * (0 - 1) < RateLimit.resetTime d - 900000 <= 60000 * 0
      /\ 0 <= 0
      /\ (0 = 0 <-> 900000 = RateLimit.resetTime d).
Proof.
  apply (rateLimit_refusal 5 900000 "10.0.0.1" 900000
           [("10.0.0.1"%string, RateLimit.mkEntry 5 900000)]
           [("10.0.0.1"%string, RateLimit.mkEntry 5 900000)] 0).
  reflexivity.
Defined.

(** ** More on the sweep, the cap and the transport *)

(** X25. Sweeps compose: cleaning the collection at one time and again at
    a later time leaves what a single sweep at the later time leaves, so
    the sweep is idempotent; it keeps the number of documents and touches
    no field other than the code and its expiry. *)
Theorem cleanupExpiredCodes_compose (t1 t2 : Z) (users : list User) :
  t1 <= t2 ->
  cleanupExpiredCodes t2 (cleanupExpiredCodes t1 users) = cleanupExpiredCodes t2 users
  /\ List.length (cleanupExpiredCodes t2 users) = List.length users
  /\ map (fun u => (phoneNumber u, password u, isPhoneVerified u,
                    verificationAttempts u, lastVerificationAttempt u,
                    isActive u, createdAt u, lastLoginAt u))
         (cleanupExpiredCodes t2 users) =
     map (fun u => (phoneNumber u, password u, isPhoneVerified u,
                    verificationAttempts u, lastVerificationAttempt u,
                    isActive u, createdAt u, lastLoginAt u))
         users.
Proof.
  intros Hle. unfold cleanupExpiredCodes.
  split; [|split].
  - rewrite map_map. apply map_ext. intros u. unfold cleanupDocument.
    destruct (verificationCodeExpiry u) as [e|] eqn:Ee.
    + destruct (Z.ltb_spec e t1) as [H1 | H1].
      * cbn. destruct (Z.ltb_spec e t2); [reflexivity | lia].
      * rewrite Ee. reflexivity.
    + rewrite Ee. reflexivity.
  - apply length_map.
  - rewrite map_map. apply map_ext. intros u. unfold cleanupDocument.
    destruct (verificationCodeExpiry u) as [e|]; [|reflexivity].
    destruct (e <? t2); reflexivity.
Qed.

Lemma cleanupExpiredCodes_compose_witness :
  cleanupExpiredCodes 2000 (cleanupExpiredCodes 500 [pendingUser; throttledUser]) =
  cleanupExpiredCodes 2000 [pendingUser; throttledUser]
  /\ List.length (cleanupExpiredCodes 2000 [pendingUser; throttledUser]) =
     List.length [pendingUser; throttledUser]
  /\ map (fun u => (phoneNumber u, password u, isPhoneVerified u,
                    verificationAttempts u, lastVerificationAttempt u,
                    isActive u, createdAt u, lastLoginAt u))
         (cleanupExpiredCodes 2000 [pendingUser; throttledUser]) =
     map (fun u => (phoneNumber u, password u, isPhoneVerified u,
                    verificationAttempts u, lastVerificationAttempt u,
                    isActive u, createdAt u, lastLoginAt u))
         [pendingUser; throttledUser].
Proof.
  apply (cleanupExpiredCodes_compose 500 2000 [pendingUser; throttledUser]). lia.
Defined.

(** X26. At the cap no code is generated or sent before the cool-down is
    over: for an account found with 5 or more attempts,
    [requestPhoneVerification] saves a document only if the last attempt is
    stamped and lies at least 15 minutes back, and the counter then
    restarts at 1; if the last attempt is less than 15 minutes back, the
    reply is 429 RATE_LIMIT_EXCEEDED, nothing is saved and the transport is
    not called. *)
Theorem request_at_cap
  (ttl : Z) (reads : RequestReads) (newId : Z)
  (twilioClient : option Twilio.Client) (twilioFrom : option string)
  (save : Doc -> bool) (phone : string) (d0 : Doc) :
  5 <= verificationAttempts (fields d0) ->
  let h := requestPhoneVerification ttl reads newId twilioClient twilioFrom save
             phone (Return (Some d0)) in
  (forall d, saved h = Some d ->
             exists last,
               lastVerificationAttempt (fields d0) = Some last
               /\ 15 * 60 * 1000 <= canRequestRead reads - last
               /\ verificationAttempts (fields d) = 1)
  /\ (forall last,
         lastVerificationAttempt (fields d0) = Some last ->
         canRequestRead reads - last < 15 * 60 * 1000 ->
         Http.status (reply h) = 429
         /\ Http.error (Http.json (reply h)) = Some "RATE_LIMIT_EXCEEDED"%string
         /\ saved h = None
         /\ smsCall h = None).
Proof.
  intros Hcap h. split.
  - intros d Hd. subst h. apply request_saved_inv in Hd.
    destruct Hd as (f & can & u1 & Hf & Hcan & Hallow & -> & _).
    injection Hf as <-. cbn [requestedAccount] in Hcan.
    destruct (canRequest_allowed_counter _ _ _ _ Hcan Hallow)
      as [[_ Hlt] | (H0 & _ & last & Hlast & Hwait)]; [lia|].
    exists last. split; [exact Hlast|]. split; [exact Hwait|].
    cbn. rewrite H0. reflexivity.
  - intros last Hlast Hin. subst h. unfold requestPhoneVerification.
    rewrite (canRequest_cooling_down (canRequestRead reads) last (fields d0)
               Hcap Hlast Hin).
    cbn. repeat split.
Qed.

Lemma request_at_cap_witness :
  let reads := mkRequestReads 0 60001 0 60001 60001 60002 in
  let h := requestPhoneVerification 120000 reads 7 None None (fun _ => true)
             "+15559998888" (Return (Some (mkDoc 3 throttledUser))) in
  (forall d, saved h = Some d ->
             exists last,
               lastVerificationAttempt (fields (mkDoc 3 throttledUser)) = Some last
               /\ 15 * 60 * 1000 <= canRequestRead reads - last
               /\ verificationAttempts (fields d) = 1)
  /\ (forall last,
         lastVerificationAttempt (fields (mkDoc 3 throttledUser)) = Some last ->
         canRequestRead reads - last < 15 * 60 * 1000 ->
         Http.status (reply h) = 429
         /\ Http.error (Http.json (reply h)) = Some "RATE_LIMIT_EXCEEDED"%string
         /\ saved h = None
         /\ smsCall h = None).
Proof.
  apply (request_at_cap 120000 (mkRequestReads 0 60001 0 60001 60001 60002) 7
           None None (fun _ => true) "+15559998888" (mkDoc 3 throttledUser)).
  cbn. lia.
Defined.

(** X27. Where the code is echoed: a reply of [requestPhoneVerification]
    that carries data is a 200 reply of a request whose code was saved and
    handed to the transport; its data holds a [verificationCode] exactly
    when no Twilio client is configured, [mockMode] is then true and the
    code is the one stored in the saved document; with a client configured
    the data holds no code, [mockMode] is false, and the code has left the
    server only inside the message that Twilio accepted, addressed to
    [formatPhoneNumber] of the requested number. *)
Theorem request_echoes_code_only_in_mock_mode
  (ttl : Z) (reads : RequestReads) (newId : Z)
  (twilioClient : option Twilio.Client) (twilioFrom : option string)
  (save : Doc -> bool) (phone : string) (found : Outcome (option Doc))
  (rd : RequestData.t) :
  let h := requestPhoneVerification ttl reads newId twilioClient twilioFrom save
             phone found in
  Http.data (Http.json (reply h)) = Some rd ->
  Http.status (reply h) = 200
  /\ exists d code,
      saved h = Some d
      /\ verificationCode (fields d) = Some code
      /\ smsCall h = Some (phone, code)
      /\ match twilioClient with
         | None =>
             RequestData.verificationCode rd = Some code
             /\ RequestData.mockMode rd = true
         | Some client =>
             RequestData.verificationCode rd = None
             /\ RequestData.mockMode rd = false
             /\ exists sid st,
                 client (Twilio.mkMessage (messageBody code) twilioFrom
                           (formatPhoneNumber phone)) = Twilio.Resource sid st
         end.
Proof.
  intros h. subst h. unfold requestPhoneVerification.
  destruct found as [f | n m]; [|discriminate].
  destruct (canRequestVerificationCode _ _) as [[can u1] | msg]; [|discriminate].
  destruct (canRequest can); [|discriminate].
  unfold generateVerificationCode.
  destruct (save _); [|discriminate]. cbn [negb].
  unfold sendVerificationSMS.
  destruct twilioClient as [client|].
  - match goal with
    | |- context [client ?m] => destruct (client m) as [sid st | code msg] eqn:Ec
    end.
    + cbn. intros E. injection E as <-. cbn.
      split; [reflexivity|]. eexists. eexists.
      split; [reflexivity|]. split; [reflexivity|]. split; [reflexivity|].
      split; [reflexivity|]. split; [reflexivity|].
      exists sid, st. exact Ec.
    + match goal with
      | |- context [let '(_, _) := ?t in _] => destruct t
      end. cbn. discriminate.
  - cbn. intros E. injection E as <-. cbn.
    split; [reflexivity|]. eexists. eexists.
    split; [reflexivity|]. split; [reflexivity|]. split; [reflexivity|].
    split; reflexivity.
Qed.

Lemma request_echoes_code_only_in_mock_mode_witness :
  let reads := mkRequestReads 0 1000 0 1000 1000 1001 in
  let client := fun _ : Twilio.Message => Twilio.Resource "SM1" "queued" in
  let mock := requestPhoneVerification 120000 reads 7 None None (fun _ => true)
                "+15551230000" (Return None) in
  let live := requestPhoneVerification 120000 reads 7 (Some client) None
                (fun _ => true) "+15551230000" (Return None) in
  (Http.status (reply mock) = 200
   /\ exists d code,
       saved mock = Some d
       /\ verificationCode (fields d) = Some code
       /\ smsCall mock = Some ("+15551230000"%string, code)
       /\ (Some "100000"%string = Some code /\ true = true))
  /\ (Http.status (reply live) = 200
      /\ exists d code,
          saved live = Some d
          /\ verificationCode (fields d) = Some code
          /\ smsCall live = Some ("+15551230000"%string, code)
          /\ (@None string = None
              /\ false = false
              /\ exists sid st,
                  client (Twilio.mkMessage (messageBody code) None
                            (formatPhoneNumber "+15551230000")) =
                  Twilio.Resource sid st)).
Proof.
  split.
  - apply (request_echoes_code_only_in_mock_mode 120000
             (mkRequestReads 0 1000 0 1000 1000 1001) 7 None None (fun _ => true)
             "+15551230000" (Return None)
             (RequestData.mk "+15551230000"
                "Verification code sent successfully (mock mode)" 120000 4
                (Some "100000"%string) true)).
    vm_compute. reflexivity.
  - apply (request_echoes_code_only_in_mock_mode 120000
             (mkRequestReads 0 1000 0 1000 1000 1001) 7
             (Some (fun _ : Twilio.Message => Twilio.Resource "SM1" "queued")) None
             (fun _ => true) "+15551230000" (Return None)
             (RequestData.mk "+15551230000"
                "Verification code sent successfully" 120000 4 None false)).
    vm_compute. reflexivity.
Defined.

(** X28. [optionalAuth] never ends a request, and it sets [req.user] in
    exactly the cases in which [authenticateToken] lets the request
    through, to the same account and token data; where [authenticateToken]
    replies 401, [optionalAuth] calls [next()] with no user. *)
Theorem optionalAuth_agrees_with_authenticateToken
  (verify : string -> Outcome Jwt.Decoded) (findById : Z -> Outcome (option Doc))
  (authHeader : option string) :
  optionalAuth verify findById authHeader =
  match authenticateToken verify findById authHeader with
  | Next user tokenData => Next user tokenData
  | Respond _ _ _ => Next None None
  end.
Proof.
  unfold optionalAuth, authenticateToken.
  destruct (tokenOfHeader authHeader) as [[|c t']|]; cbn [Js.falsy_string];
    try reflexivity.
  destruct (verify (String c t')) as [decoded | n m].
  2: { destruct (String.eqb n "TokenExpiredError"); [reflexivity|].
       destruct (String.eqb n "JsonWebTokenError"); reflexivity. }
  destruct (findById (Jwt.userId (Jwt.claims decoded))) as [[d|] | n m].
  - destruct (isActive (fields d)); reflexivity.
  - reflexivity.
  - destruct (String.eqb n "TokenExpiredError"); [reflexivity|].
    destruct (String.eqb n "JsonWebTokenError"); reflexivity.
Qed.
